(** * convert-epub.py: navigation flattening, asset discovery and the
      pandoc invocation, embedded from [en/convert-epub.py].

    The script is modelled on a POSIX host ([os.path] is [posixpath]).
    Python values are an inductive type, printing is a log of lines, the
    filesystem and the external tool are parameters of the run. *)

From Stdlib Require Import ZArith Ascii List Lia.
From Stdlib Require String.
From stdpp Require Import base decidable list sorting strings pretty gmap.
Import ListNotations.

#[local] Set Warnings "-register-all".

(** ** Python values as [yaml.safe_load] produces them *)

(** A mapping keeps its insertion order, which is the order [dict.values()]
    iterates in: it is an association list.  The program looks up one
    key, the string [nav], and otherwise reads values only: keys are
    strings here. *)
Inductive pyval : Type :=
| PStr (s : string)
| PList (items : list pyval)
| PDict (entries : list (string * pyval))
| PInt (z : Z)
| PFloat (bits : Z)
| PBool (b : bool)
| PNone.

(** ** Induction over Python values *)

Section PyvalInd.

Variable P : pyval -> Prop.
Hypothesis HStr : forall s, P (PStr s).
Hypothesis HList : forall items, Forall P items -> P (PList items).
Hypothesis HDict :
  forall entries, Forall (fun kv => P (snd kv)) entries -> P (PDict entries).
Hypothesis HInt : forall z, P (PInt z).
Hypothesis HFloat : forall bits, P (PFloat bits).
Hypothesis HBool : forall b, P (PBool b).
Hypothesis HNone : P PNone.

Fixpoint pyval_nested_ind (v : pyval) : P v :=
  match v with
  | PStr s => HStr s
  | PList items =>
      HList items
        ((fix all (l : list pyval) : Forall P l :=
            match l with
            | [] => @List.Forall_nil _ P
            | x :: rest =>
                @List.Forall_cons _ P x rest (pyval_nested_ind x) (all rest)
            end) items)
  | PDict entries =>
      HDict entries
        ((fix all (l : list (string * pyval))
            : Forall (fun kv => P (snd kv)) l :=
            match l with
            | [] => @List.Forall_nil _ _
            | kv :: rest =>
                @List.Forall_cons _ (fun kv => P (snd kv)) kv rest
                                  (pyval_nested_ind (snd kv)) (all rest)
            end) entries)
  | PInt z => HInt z
  | PFloat bits => HFloat bits
  | PBool b => HBool b
  | PNone => HNone
  end.

End PyvalInd.

(** ** [posixpath] *)
Module posixpath.

Definition sep : string := "/".

Definition startswith_sep (s : string) : bool :=
  match s with
  | String "/"%char _ => true
  | _ => false
  end.

Fixpoint endswith_sep (s : string) : bool :=
  match s with
  | EmptyString => false
  | String c EmptyString => Ascii.eqb c "/"%char
  | String _ rest => endswith_sep rest
  end.

Definition is_empty (s : string) : bool :=
  match s with
  | EmptyString => true
  | _ => false
  end.

(** [os.path.join(a, b)]: an absolute [b] replaces [a]; a separator is
    inserted unless [a] is empty or already ends with one. *)
Definition join (a b : string) : string :=
  if startswith_sep b then b
  else if is_empty a || endswith_sep a then a +:+ b
  else a +:+ sep +:+ b.

(** [join] applied to a first path and any number of further ones, as
    [relpath] calls it on its component list. *)
Definition join_all (first : string) (rest : list string) : string :=
  fold_left join rest first.

(** [p.split("/")] *)
Fixpoint split_sep (p : string) : list string :=
  match p with
  | EmptyString => [EmptyString]
  | String c rest =>
      if Ascii.eqb c "/"%char then EmptyString :: split_sep rest
      else match split_sep rest with
           | [] => [String c EmptyString]
           | w :: ws => String c w :: ws
           end
  end.

(** [p[:p.rfind("/") + 1]] *)
Fixpoint head_through_last_sep (p : string) : string :=
  match p with
  | EmptyString => EmptyString
  | String c rest =>
      let h := head_through_last_sep rest in
      if negb (is_empty h) then String c h
      else if Ascii.eqb c "/"%char then sep
      else EmptyString
  end.

(** [s.rstrip("/")] *)
Fixpoint rstrip_sep (s : string) : string :=
  match s with
  | EmptyString => EmptyString
  | String c rest =>
      let r := rstrip_sep rest in
      if Ascii.eqb c "/"%char && is_empty r then EmptyString
      else String c r
  end.

(** [s == "/" * len(s)] *)
Fixpoint all_sep (s : string) : bool :=
  match s with
  | EmptyString => true
  | String c rest => Ascii.eqb c "/"%char && all_sep rest
  end.

Definition dirname (p : string) : string :=
  let head := head_through_last_sep p in
  if negb (is_empty head) && negb (all_sep head) then rstrip_sep head
  else head.

Definition isabs (p : string) : bool := startswith_sep p.

(** Leading slashes kept by [normpath]: two exactly stay two, otherwise
    an absolute path keeps one. *)
Definition initial_slashes (p : string) : nat :=
  match p with
  | String "/"%char (String "/"%char (String "/"%char _)) => 1
  | String "/"%char (String "/"%char _) => 2
  | String "/"%char _ => 1
  | _ => 0
  end.

(** The loop of [normpath] over the components; [new_comps] is kept
    reversed (its head is Python's [new_comps[-1]]). *)
Fixpoint normpath_comps (slashes : nat) (comps new_comps : list string)
  : list string :=
  match comps with
  | [] => rev new_comps
  | comp :: rest =>
      if String.eqb comp "" || String.eqb comp "." then
        normpath_comps slashes rest new_comps
      else if negb (String.eqb comp "..")
              || ((slashes =? 0) && match new_comps with [] => true | _ => false end)
              || match new_comps with
                 | top :: _ => String.eqb top ".."
                 | [] => false
                 end
      then normpath_comps slashes rest (comp :: new_comps)
      else match new_comps with
           | _ :: popped => normpath_comps slashes rest popped
           | [] => normpath_comps slashes rest new_comps
           end
  end.

Fixpoint repeat_sep (n : nat) : string :=
  match n with
  | O => EmptyString
  | S k => String "/"%char (repeat_sep k)
  end.

Definition normpath (path : string) : string :=
  if is_empty path then "."
  else
    let slashes := initial_slashes path in
    let comps := normpath_comps slashes (split_sep path) [] in
    let joined := repeat_sep slashes +:+ String.concat sep comps in
    if is_empty joined then "." else joined.

Section WithCwd.

(** [os.getcwd()] *)
Variable cwd : string.

Definition abspath (path : string) : string :=
  normpath (if isabs path then path else join cwd path).

Definition nonempty_comps (p : string) : list string :=
  filter (fun x => negb (is_empty x) = true) (split_sep p).

(** [len(commonprefix([a, b]))] on component lists *)
Fixpoint common_prefix_length (a b : list string) : nat :=
  match a, b with
  | x :: a', y :: b' =>
      if String.eqb x y then S (common_prefix_length a' b') else 0
  | _, _ => 0
  end.

(** [os.path.relpath(path, start)]; [None] is the [ValueError] raised
    for an empty [path]. *)
Definition relpath (path start : string) : option string :=
  if is_empty path then None
  else
    let start_list := nonempty_comps (abspath start) in
    let path_list := nonempty_comps (abspath path) in
    let i := common_prefix_length start_list path_list in
    let rel_list :=
      repeat ".." (length start_list - i) ++ drop i path_list in
    match rel_list with
    | [] => Some "."
    | first :: rest => Some (join_all first rest)
    end.

End WithCwd.

End posixpath.

(** ** [str] methods *)

(** [s.replace("\\", "/")]: both arguments are one character long. *)
Fixpoint replace_backslash (s : string) : string :=
  match s with
  | EmptyString => EmptyString
  | String c rest =>
      String (if Ascii.eqb c "\"%char then "/"%char else c)
             (replace_backslash rest)
  end.

(** [s.endswith(suffix)] *)
Definition endswith (s suffix : string) : bool :=
  let n := String.length s in
  let m := String.length suffix in
  (m <=? n) && String.eqb (String.substring (n - m) m s) suffix.

(** ** Printing to the error stream *)

(** A computation that prints lines to [sys.stderr]: its value and the
    lines, in the order printed. *)
Definition Err (A : Type) : Type := (A * list string)%type.

Definition ret {A} (a : A) : Err A := (a, []).

Definition bind {A B} (m : Err A) (k : A -> Err B) : Err B :=
  let (a, w1) := m in
  let (b, w2) := k a in
  (b, w1 ++ w2).

Definition eprint (line : string) : Err unit := (tt, [line]).

Declare Scope err_scope.
Delimit Scope err_scope with err.
Notation "x <- m ;; k" := (bind m (fun x => k))
  (at level 100, m at next level, right associativity) : err_scope.
Notation "m ;;; k" := (bind m (fun _ => k))
  (at level 100, right associativity) : err_scope.

(** [for x in xs: acc += body(x)] *)
Definition for_acc {X A} (body : X -> Err (list A)) (xs : list X)
  : list A -> Err (list A) :=
  fold_left (fun acc x => (files <- acc ;; r <- body x ;; ret (files ++ r))%err)
            xs
    ∘ ret.

(** ** The navigation flattener *)

Definition depth_limit : nat := 100.

Definition recursion_warning : string := "Warning: Infinite recursion detected".

Definition missing_warning (path : string) : string :=
  "Warning: Markdown file not found: " +:+ path.

Section Flattener.

(** [os.path.exists] *)
Variable path_exists : string -> bool.

Fixpoint extract_md_files (item : pyval) (depth : nat) {struct item}
  : Err (list string) :=
  if depth_limit <? depth then
    (eprint recursion_warning ;;; ret [])%err
  else
    match item with
    | PStr s =>
        let path := posixpath.join "docs" s in
        if path_exists path then ret [s]
        else (eprint (missing_warning path) ;;; ret [])%err
    | PList items =>
        for_acc (fun sub => extract_md_files sub (depth + 1)) items []
    | PDict entries =>
        for_acc (fun kv => extract_md_files (snd kv) (depth + 1)) entries []
    | _ => ret []
    end.

End Flattener.

(** ** The asset directory discoverer *)

(** The directories below a root, in the order [os.scandir] lists them.
    Plain files play no part: [find_asset_dirs] drops the third component
    of what [os.walk] yields. *)
Inductive dirtree : Type :=
| Dir (subdirs : list (string * dirtree)).

(** [os.walk(top)], top-down: a directory is yielded with the names of its
    subdirectories before any of them is walked. *)
Fixpoint walk (top : string) (t : dirtree) : list (string * list string) :=
  match t with
  | Dir subdirs =>
      (top, map fst subdirs)
        :: flat_map (fun entry => walk (posixpath.join top (fst entry)) (snd entry))
                    subdirs
  end.

(** A root that cannot be listed yields nothing. *)
Definition os_walk (tree_at : string -> option dirtree) (root : string)
  : list (string * list string) :=
  match tree_at root with
  | Some t => walk root t
  | None => []
  end.

Definition assets_suffix : string := ".assets".

Section Discoverer.

Variable cwd : string.
Variable tree_at : string -> option dirtree.

(** The four strings added for one matching directory; [None] when
    [relpath] raises. *)
Definition asset_variants (root dirpath d : string) : option (list string) :=
  let full_path := replace_backslash (posixpath.join dirpath d) in
  rel ← posixpath.relpath cwd full_path root;
  let rel_path := replace_backslash rel in
  Some [ full_path;
         replace_backslash (posixpath.dirname full_path);
         rel_path;
         replace_backslash (posixpath.join "docs" rel_path) ].

(** [for x in xs: acc = body(acc, x)] where [body] may raise *)
Definition for_opt {X S} (body : S -> X -> option S) (xs : list X) (init : S)
  : option S :=
  fold_left (fun acc x => s ← acc; body s x) xs (Some init).

Definition scan_dirnames (root dirpath : string) (dirnames : list string)
           (asset_dirs : gset string) : option (gset string) :=
  for_opt (fun acc d =>
             if endswith d assets_suffix then
               vs ← asset_variants root dirpath d;
               Some (acc ∪ list_to_set vs)
             else Some acc)
          dirnames asset_dirs.

(** The set built by the two loops. *)
Definition asset_dir_set (root : string) : option (gset string) :=
  for_opt (fun acc step => scan_dirnames root (fst step) (snd step) acc)
          (os_walk tree_at root) ∅.

(** [list(asset_dirs)]: the elements once each, in no specified order. *)
Definition find_asset_dirs (root : string) : option (list string) :=
  elements <$> asset_dir_set root.

End Discoverer.

(** [x] is one of the strings recorded for the directory [d] that the
    walk finds in [dirpath]. *)
Definition variant_of (cwd root dirpath d x : string) : Prop :=
  endswith d assets_suffix = true
  /\ exists vs, asset_variants cwd root dirpath d = Some vs /\ x ∈ vs.

(** ** The program *)

(** What [subprocess.run] does with the command. *)
Inductive tool_outcome : Type :=
| Completed (returncode : Z) (stdout stderr : string)
| TimeoutExpired (text stdout_text stderr_text : string)
    (* [str(e)], [str(e.stdout)], [str(e.stderr)] of the exception *)
| SpawnFailed (exc : string).
    (* any other exception, e.g. the executable is missing *)

(** What the program does to the outside, one entry per call. *)
Inductive event : Type :=
| Stdout (text : string)                    (* [print(text, flush=True)] *)
| Stderr (text : string)                    (* [print(text, file=sys.stderr, flush=True)] *)
| Invoke (cmd : list string) (timeout : Z)  (* [subprocess.run(cmd, timeout=...)] *)
| Rmtree (dir : string).                    (* [shutil.rmtree(dir)] *)

Record world : Type := {
  (* [yaml.safe_load] of [mkdocs.yml]; [None] when opening or parsing raises *)
  w_config : option pyval;
  (* [os.path.exists] while the command is built *)
  w_exists : string -> bool;
  (* [os.getcwd()] *)
  w_cwd : string;
  (* the directory tree [os.walk] finds at a root *)
  w_tree : string -> option dirtree;
  (* the external tool *)
  w_tool : list string -> Z -> tool_outcome;
  (* [os.path.exists] once the tool has returned *)
  w_exists_after : string -> bool;
  (* [shutil.rmtree]: [None], or the text of the [Exception] it raises *)
  w_rmtree : string -> option string;
}.

(** How a piece of the program ends. *)
Inductive ending (A : Type) : Type :=
| Value (a : A)
| Exit (status : Z)            (* [sys.exit(status)] *)
| Uncaught (exc : string).     (* an exception nobody handles *)
Arguments Value {A} a.
Arguments Exit {A} status.
Arguments Uncaught {A} exc.

Definition Run (A : Type) : Type := (list event * ending A)%type.

Module Run.

Definition ret {A} (a : A) : Run A := ([], Value a).

Definition bind {A B} (m : Run A) (k : A -> Run B) : Run B :=
  match m with
  | (t1, Value a) => let (t2, e) := k a in (t1 ++ t2, e)
  | (t1, Exit status) => (t1, Exit status)
  | (t1, Uncaught exc) => (t1, Uncaught exc)
  end.

Definition emit (e : event) : Run unit := ([e], Value tt).
Definition print (text : string) : Run unit := emit (Stdout text).
Definition eprint (text : string) : Run unit := emit (Stderr text).
Definition sys_exit {A} (status : Z) : Run A := ([], Exit status).
Definition raise {A} (exc : string) : Run A := ([], Uncaught exc).

(** A computation that only prints to the error stream. *)
Definition of_err {A} (m : Err A) : Run A := (map Stderr (snd m), Value (fst m)).

(** A value that may be an exception. *)
Definition of_option {A} (exc : string) (o : option A) : Run A :=
  match o with
  | Some a => ret a
  | None => raise exc
  end.

End Run.

Declare Scope run_scope.
Delimit Scope run_scope with run.
Notation "x <- m ;; k" := (Run.bind m (fun x => k))
  (at level 100, m at next level, right associativity) : run_scope.
Notation "m ;;; k" := (Run.bind m (fun _ => k))
  (at level 100, right associativity) : run_scope.

(** The status the interpreter exits with. *)
Definition exit_status {A} (e : ending A) : Z :=
  match e with
  | Value _ => 0
  | Exit status => status
  | Uncaught _ => 1
  end.

Definition load_config (w : world) : Run pyval :=
  Run.of_option "load_config" (w_config w).

(** [config.get(key, default)]; only a mapping has the method. *)
Fixpoint assoc_get (entries : list (string * pyval)) (key : string)
  : option pyval :=
  match entries with
  | [] => None
  | (k, v) :: rest => if String.eqb k key then Some v else assoc_get rest key
  end.

Definition config_get (config : pyval) (key : string) (fallback : pyval)
  : Run pyval :=
  match config with
  | PDict entries => Run.ret (default fallback (assoc_get entries key))
  | _ => Run.raise "AttributeError"
  end.

(** [if md] on a string *)
Definition truthy (s : string) : bool := negb (posixpath.is_empty s).

Definition md_files_prefixed (md_files : list string) : list string :=
  map (posixpath.join "docs") (filter (fun md => truthy md = true) md_files).

Definition fixed_base_dirs : list string := ["."; "docs"; "assets"; "../assets"].

Definition parent_assets : string := posixpath.join ".." "assets".

(** [base_dirs] after the conditional [append] *)
Definition base_dirs (path_exists : string -> bool) : list string :=
  if path_exists parent_assets then fixed_base_dirs ++ [parent_assets]
  else fixed_base_dirs.

(** [sorted(set(xs))] *)
Definition sorted_set (xs : list string) : list string :=
  merge_sort String.le (elements (list_to_set xs : gset string)).

Definition all_dirs (base asset_dirs : list string) : list string :=
  sorted_set (base ++ asset_dirs).

Definition resource_path (base asset_dirs : list string) : string :=
  String.concat ":" (all_dirs base asset_dirs).

Definition fixed_args (resource : string) : list string :=
  [ "pandoc";
    "-o";
    "hello_algo.epub";
    "--toc";
    "--toc-depth=2";
    "--metadata";
    "title=Hello Algo";
    "--resource-path";
    resource;
    "--mathjax";
    "--verbose";
    "--extract-media=extracted-media";
    "--wrap=none";
    "-t";
    "epub3";
    "--highlight-style=pygments";
    "-f";
    "markdown+fenced_code_blocks+fenced_code_attributes";
    "--epub-cover-image=./docs/assets/covers/chapter_hello_algo.jpg" ].

(** The command line: lines 78 to 109 of the script. *)
Definition build_command (path_exists : string -> bool)
           (md_files asset_dirs : list string) : list string :=
  let inputs := md_files_prefixed md_files in
  let resource := resource_path (base_dirs path_exists) asset_dirs in
  fixed_args resource ++ inputs.

Definition tool_timeout : Z := 300.

Definition media_dir : string := "extracted-media".

(** [subprocess.run] inside its [try]: the [except] branch reports the
    timeout and exits. *)
Definition run_tool (w : world) (cmd : list string) : Run (Z * string * string) :=
  (Run.emit (Invoke cmd tool_timeout) ;;;
   match w_tool w cmd tool_timeout with
   | Completed returncode out err => Run.ret (returncode, out, err)
   | TimeoutExpired text out err =>
       Run.eprint ("Pandoc timed out: " +:+ text) ;;;
       Run.print ("stdout: " +:+ out) ;;;
       Run.eprint ("stderr: " +:+ err) ;;;
       Run.sys_exit 1
   | SpawnFailed exc => Run.raise exc
   end)%run.

Definition cleanup (w : world) : Run unit :=
  if w_exists_after w media_dir then
    (Run.emit (Rmtree media_dir) ;;;
     match w_rmtree w media_dir with
     | None =>
         Run.print ("Cleaned up temporary files in " +:+ media_dir)
     | Some e =>
         Run.eprint ("Error cleaning up " +:+ media_dir +:+ ": " +:+ e)
     end)%run
  else Run.ret tt.

(** After the tool has returned. *)
Definition report (w : world) (returncode : Z) (out err : string) : Run unit :=
  (Run.print out ;;;
   (if truthy err then Run.eprint err else Run.ret tt) ;;;
   (if negb (returncode =? 0)%Z then
      Run.eprint ("Pandoc failed with return code " +:+ pretty returncode) ;;;
      Run.sys_exit 1
    else Run.ret tt) ;;;
   cleanup w)%run.

(** Lines 76 and 77: the flattened list of a loaded configuration. *)
Definition nav_md_files (path_exists : string -> bool) (config : pyval)
  : Run (list string) :=
  (nav <- config_get config "nav" (PList []) ;;
   Run.of_err (extract_md_files path_exists nav 0))%run.

Definition main (w : world) : Run unit :=
  (config <- load_config w ;;
   md_files <- nav_md_files (w_exists w) config ;;
   asset_dirs <- Run.of_option "ValueError"
                   (find_asset_dirs (w_cwd w) (w_tree w) "docs") ;;
   let cmd := build_command (w_exists w) md_files asset_dirs in
   result <- run_tool w cmd ;;
   let '(returncode, out, err) := result in
   report w returncode out err)%run.

(** The exit status of the script and everything it did. *)
Definition script (w : world) : list event * Z :=
  let (trace, e) := main w in (trace, exit_status e).

(** ** Shapes of navigation values *)

(** The string leaves of a value, depth-first and left to right. *)
Fixpoint leaves (v : pyval) : list string :=
  match v with
  | PStr s => [s]
  | PList items => flat_map leaves items
  | PDict entries => flat_map (fun kv => leaves (snd kv)) entries
  | _ => []
  end.

(** The string leaves that lie below at most [levels] containers,
    depth-first and left to right: what is deeper is left out. *)
Fixpoint leaves_within (v : pyval) (levels : nat) {struct v} : list string :=
  match v with
  | PStr s => [s]
  | PList items =>
      match levels with
      | O => []
      | S k => flat_map (fun sub => leaves_within sub k) items
      end
  | PDict entries =>
      match levels with
      | O => []
      | S k => flat_map (fun kv => leaves_within (snd kv) k) entries
      end
  | _ => []
  end.

(** [n] single-element lists around a value. *)
Fixpoint nest (n : nat) (v : pyval) : pyval :=
  match n with
  | O => v
  | S k => PList [nest k v]
  end.

(** Neither a string, nor a sequence, nor a mapping. *)
Definition is_other (v : pyval) : bool :=
  match v with
  | PStr _ | PList _ | PDict _ => false
  | _ => true
  end.

(** How many containers lie around the deepest value. *)
Fixpoint height (v : pyval) : nat :=
  match v with
  | PList items => S (max_list (map height items))
  | PDict entries => S (max_list (map (fun kv => height (snd kv)) entries))
  | _ => 0
  end.

(** The leaves whose file exists, and the warnings of the others, both in
    document order. *)
Definition present_leaves (path_exists : string -> bool) (v : pyval)
  : list string :=
  List.filter (fun s => path_exists (posixpath.join "docs" s)) (leaves v).

Definition missing_leaf_warnings (path_exists : string -> bool) (v : pyval)
  : list string :=
  map (fun s => missing_warning (posixpath.join "docs" s))
      (List.filter (fun s => negb (path_exists (posixpath.join "docs" s)))
                   (leaves v)).

(** No backslash is left in a string. *)
Fixpoint no_backslash (s : string) : bool :=
  match s with
  | EmptyString => true
  | String c rest => negb (Ascii.eqb c "\"%char) && no_backslash rest
  end.

(** The removals the program attempted, in order. *)
Definition removals (trace : list event) : list string :=
  omap (fun e => match e with Rmtree dir => Some dir | _ => None end) trace.

(** ** Navigation values with sharing *)

(** [yaml.safe_load] resolves anchors and aliases, so the loaded value is
    a graph of objects: a list may be reached twice, or contain itself.
    Here objects live in a heap and containers hold references; the
    flattener only reads them.  A Python call nests a frame on the
    interpreter's stack: [fuel] is the number of frames available, and
    [None] is a stack that ran out. *)
Module Aliased.

Definition ref : Type := nat.

Inductive obj : Type :=
| OStr (s : string)
| OList (items : list ref)
| ODict (entries : list (string * ref))
| OInt (z : Z)
| OFloat (bits : Z)
| OBool (b : bool)
| ONone.

Definition heap : Type := ref -> obj.

Section Flattener.

Variable path_exists : string -> bool.
Variable h : heap.

(** [for x in xs: acc += body(x)] where [body] may exhaust the stack *)
Definition for_acc {X} (body : X -> option (Err (list string)))
           (xs : list X) (init : list string)
  : option (Err (list string)) :=
  fold_left (fun acc x =>
               a ← acc;
               r ← body x;
               Some (fst a ++ fst r, snd a ++ snd r))
            xs (Some (init, [])).

Fixpoint extract_md_files (fuel : nat) (item : ref) (depth : nat)
  : option (Err (list string)) :=
  match fuel with
  | O => None
  | S frames =>
      if depth_limit <? depth then
        Some (eprint recursion_warning ;;; ret [])%err
      else
        match h item with
        | OStr s =>
            let path := posixpath.join "docs" s in
            if path_exists path then Some (ret [s])
            else Some (eprint (missing_warning path) ;;; ret [])%err
        | OList items =>
            for_acc (fun sub => extract_md_files frames sub (depth + 1))
                    items []
        | ODict entries =>
            for_acc (fun kv => extract_md_files frames (snd kv) (depth + 1))
                    entries []
        | _ => Some (ret [])
        end
  end.

End Flattener.

(** The tree a reference unfolds to when followed through [levels]
    containers; what lies deeper is cut off. *)
Fixpoint unfold (h : heap) (levels : nat) (r : ref) : pyval :=
  match levels with
  | O => PNone
  | S k =>
      match h r with
      | OStr s => PStr s
      | OList items => PList (map (unfold h k) items)
      | ODict entries =>
          PDict (map (fun kv => (fst kv, unfold h k (snd kv))) entries)
      | OInt z => PInt z
      | OFloat bits => PFloat bits
      | OBool b => PBool b
      | ONone => PNone
      end
  end.

End Aliased.

(** ** Directories of a tree *)



(** ** Example inputs *)

(** The navigation of the spec's example. *)
Definition example_nav : pyval :=
  PList [PStr "intro.md"; PDict [("Part 1", PList [PStr "a.md"; PStr "b.md"])]].

(** A documents root holding [ch1.assets] and [sub/ch2.assets]. *)
Definition example_docs : dirtree :=
  Dir [("ch1.assets", Dir []); ("sub", Dir [("ch2.assets", Dir [])])].

(** The commands the program ran, in order. *)
Definition invocations (trace : list event) : list (list string) :=
  omap (fun e => match e with Invoke cmd _ => Some cmd | _ => None end) trace.

(** A checkout in [/home/u/en]: the navigation of the example followed by
    an empty entry, the two asset directories, and the sibling [../assets];
    the tool and [shutil.rmtree] behave as given. *)
Definition example_world (tool : tool_outcome) (rmtree : option string) : world :=
  {| w_config :=
       Some (PDict [("site_name", PStr "Hello Algo");
                    ("nav", PList [example_nav; PStr ""])]);
     w_exists :=
       fun p => bool_decide (p ∈ ["docs/intro.md"; "docs/a.md"; "docs/";
                                  "../assets"]);
     w_cwd := "/home/u/en";
     w_tree := fun r => if String.eqb r "docs" then Some example_docs else None;
     w_tool := fun _ _ => tool;
     w_exists_after := fun p => bool_decide (p = "extracted-media");
     w_rmtree := fun _ => rmtree |}.

(** A checkout whose navigation names one file by an absolute path. *)
Definition absolute_leaf_world : world :=
  {| w_config := Some (PDict [("nav", PList [PStr "/srv/x.md"])]);
     w_exists := fun p => bool_decide (p = "/srv/x.md");
     w_cwd := "/home/u/en";
     w_tree := fun _ => None;
     w_tool := fun _ _ => Completed 0 "" "";
     w_exists_after := fun _ => false;
     w_rmtree := fun _ => None |}.

(** * Properties *)

(** ** The accumulating loop *)

Lemma for_acc_fold {X A} (body : X -> Err (list A)) xs (acc : Err (list A)) :
  fold_left (fun acc x => (files <- acc ;; r <- body x ;; ret (files ++ r))%err)
            xs acc
  = (fst acc ++ concat (map (fun x => fst (body x)) xs),
     snd acc ++ concat (map (fun x => snd (body x)) xs)).
Proof.
  revert acc. induction xs as [|x xs IH]; intros [files log]; simpl.
  - by rewrite !app_nil_r.
  - rewrite IH. unfold bind, ret. destruct (body x) as [r w]; simpl.
    by rewrite !app_nil_r, <- !app_assoc.
Qed.

Lemma for_acc_spec {X A} (body : X -> Err (list A)) xs (init : list A) :
  for_acc body xs init
  = (init ++ concat (map (fun x => fst (body x)) xs),
     concat (map (fun x => snd (body x)) xs)).
Proof. unfold for_acc, compose. by rewrite for_acc_fold. Qed.

(** ** The flattener, case by case *)

Section FlattenerFacts.

Variable path_exists : string -> bool.
#[local] Abbreviation extract := (extract_md_files path_exists).

Lemma extract_unfold item depth :
  extract item depth
  = if depth_limit <? depth then ([], [recursion_warning])
    else match item with
         | PStr s =>
             let path := posixpath.join "docs" s in
             if path_exists path then ([s], [])
             else ([], [missing_warning path])
         | PList items =>
             (concat (map (fun sub => fst (extract sub (depth + 1))) items),
              concat (map (fun sub => snd (extract sub (depth + 1))) items))
         | PDict entries =>
             (concat (map (fun kv => fst (extract (snd kv) (depth + 1))) entries),
              concat (map (fun kv => snd (extract (snd kv) (depth + 1))) entries))
         | _ => ([], [])
         end.
Proof.
  destruct item; cbn [extract_md_files];
    destruct (depth_limit <? depth); try reflexivity;
    by rewrite for_acc_spec.
Qed.

Lemma extract_past_limit item depth :
  depth_limit < depth -> extract item depth = ([], [recursion_warning]).
Proof.
  intros H. rewrite extract_unfold.
  by destruct (Nat.ltb_spec depth_limit depth); [|lia].
Qed.

Lemma extract_within_limit item depth :
  depth <= depth_limit ->
  extract item depth
  = match item with
    | PStr s =>
        let path := posixpath.join "docs" s in
        if path_exists path then ([s], [])
        else ([], [missing_warning path])
    | PList items =>
        (concat (map (fun sub => fst (extract sub (depth + 1))) items),
         concat (map (fun sub => snd (extract sub (depth + 1))) items))
    | PDict entries =>
        (concat (map (fun kv => fst (extract (snd kv) (depth + 1))) entries),
         concat (map (fun kv => snd (extract (snd kv) (depth + 1))) entries))
    | _ => ([], [])
    end.
Proof.
  intros H. rewrite extract_unfold.
  by destruct (Nat.ltb_spec depth_limit depth); [lia|].
Qed.

Lemma concat_map_nil {X A} (f : X -> list A) xs :
  (forall x, f x = []) -> concat (map f xs) = [].
Proof. intros H. induction xs; simpl; [done|]. by rewrite H, IHxs. Qed.

(** The files of a sequence or a mapping, at any depth: past the limit
    both sides are empty. *)
Lemma extract_files_list items depth :
  fst (extract (PList items) depth)
  = concat (map (fun sub => fst (extract sub (depth + 1))) items).
Proof.
  destruct (decide (depth <= depth_limit)) as [H|H].
  - by rewrite extract_within_limit.
  - rewrite extract_past_limit by lia. simpl. symmetry.
    apply concat_map_nil. intros x. by rewrite extract_past_limit by lia.
Qed.

Lemma extract_files_dict entries depth :
  fst (extract (PDict entries) depth)
  = concat (map (fun kv => fst (extract (snd kv) (depth + 1))) entries).
Proof.
  destruct (decide (depth <= depth_limit)) as [H|H].
  - by rewrite extract_within_limit.
  - rewrite extract_past_limit by lia. simpl. symmetry.
    apply concat_map_nil. intros x. by rewrite extract_past_limit by lia.
Qed.

End FlattenerFacts.

(** ** Document order *)

Section FlattenerOrder.

Variable path_exists : string -> bool.
#[local] Abbreviation extract := (extract_md_files path_exists).

Lemma sublist_concat_map {X} (f g : X -> list string) xs :
  Forall (fun x => f x `sublist_of` g x) xs ->
  concat (map f xs) `sublist_of` flat_map g xs.
Proof.
  induction 1 as [|x xs Hx _ IH]; simpl; [constructor|].
  by apply sublist_app.
Qed.

Lemma extract_sublist_leaves item :
  forall depth, fst (extract item depth) `sublist_of` leaves item.
Proof.
  induction item as [s|items IH|entries IH| | | |] using pyval_nested_ind;
    intros depth.
  - rewrite extract_unfold.
    destruct (depth_limit <? depth); [apply sublist_nil_l|]. simpl.
    destruct (path_exists _); simpl; [done|apply sublist_nil_l].
  - rewrite extract_files_list. simpl. apply sublist_concat_map.
    eapply Forall_impl; [exact IH|]. intros x Hx. apply Hx.
  - rewrite extract_files_dict. simpl. apply sublist_concat_map.
    eapply Forall_impl; [exact IH|]. intros x Hx. apply Hx.
  - rewrite extract_unfold. destruct (_ <? _); apply sublist_nil_l.
  - rewrite extract_unfold. destruct (_ <? _); apply sublist_nil_l.
  - rewrite extract_unfold. destruct (_ <? _); apply sublist_nil_l.
  - rewrite extract_unfold. destruct (_ <? _); apply sublist_nil_l.
Qed.

(** Whatever is returned passed the existence test. *)
Lemma extract_files_exist item :
  forall depth,
    Forall (fun md => path_exists (posixpath.join "docs" md) = true)
           (fst (extract item depth)).
Proof.
  induction item as [s|items IH|entries IH| | | |] using pyval_nested_ind;
    intros depth.
  - rewrite extract_unfold.
    destruct (depth_limit <? depth); [constructor|]. simpl.
    destruct (path_exists _) eqn:E; simpl; repeat constructor. exact E.
  - rewrite extract_files_list. apply Forall_concat, Forall_map.
    eapply Forall_impl; [exact IH|]. intros x Hx. apply Hx.
  - rewrite extract_files_dict. apply Forall_concat, Forall_map.
    eapply Forall_impl; [exact IH|]. intros x Hx. apply Hx.
  - rewrite extract_unfold. destruct (_ <? _); constructor.
  - rewrite extract_unfold. destruct (_ <? _); constructor.
  - rewrite extract_unfold. destruct (_ <? _); constructor.
  - rewrite extract_unfold. destruct (_ <? _); constructor.
Qed.

Lemma extract_singleton_list x depth :
  depth <= depth_limit ->
  extract (PList [x]) depth = extract x (depth + 1).
Proof.
  intros H. rewrite extract_within_limit by done. simpl.
  rewrite !app_nil_r. by destruct (extract x (depth + 1)).
Qed.

Lemma extract_nest_within n v depth :
  depth + n <= S depth_limit ->
  extract (nest n v) depth = extract v (depth + n).
Proof.
  revert depth. induction n as [|n IH]; intros depth H; cbn [nest].
  - by rewrite Nat.add_0_r.
  - rewrite extract_singleton_list by lia. rewrite IH by lia.
    f_equal. lia.
Qed.

Lemma extract_nest_past_limit n v depth :
  depth_limit < depth + n ->
  extract (nest n v) depth = ([], [recursion_warning]).
Proof.
  revert depth. induction n as [|n IH]; intros depth H; cbn [nest].
  - apply extract_past_limit. lia.
  - destruct (decide (depth <= depth_limit)) as [Hd|Hd].
    + rewrite extract_singleton_list by done. apply IH. lia.
    + apply extract_past_limit. lia.
Qed.

Lemma filter_flat_map_concat {X} (p : string -> bool) (g : X -> list string) xs :
  List.filter p (flat_map g xs) = concat (map (fun x => List.filter p (g x)) xs).
Proof.
  rewrite flat_map_concat_map, <- concat_filter_map, map_map. reflexivity.
Qed.

(** The files, exactly: the leaves within the levels that are left, kept
    when their file exists. *)
Lemma extract_files_within item :
  forall depth,
    depth <= depth_limit ->
    fst (extract item depth)
    = List.filter (fun s => path_exists (posixpath.join "docs" s))
                  (leaves_within item (depth_limit - depth)).
Proof.
  induction item as [s|items IH|entries IH| | | |] using pyval_nested_ind;
    intros depth Hdepth;
    try (by rewrite extract_within_limit by done).
  - rewrite extract_within_limit by done. cbn.
    by destruct (path_exists _).
  - rewrite extract_files_list. cbn [leaves_within].
    destruct (depth_limit - depth) as [|k] eqn:Hleft.
    + apply concat_map_nil. intros x. by rewrite extract_past_limit by lia.
    + rewrite filter_flat_map_concat. f_equal. apply map_ext_Forall.
      eapply Forall_impl; [exact IH|]. intros x Hx. cbn beta.
      rewrite Hx by lia. do 2 f_equal. lia.
  - rewrite extract_files_dict. cbn [leaves_within].
    destruct (depth_limit - depth) as [|k] eqn:Hleft.
    + apply concat_map_nil. intros x. by rewrite extract_past_limit by lia.
    + rewrite filter_flat_map_concat. f_equal. apply map_ext_Forall.
      eapply Forall_impl; [exact IH|]. intros x Hx. cbn beta.
      rewrite Hx by lia. do 2 f_equal. lia.
Qed.

Lemma extract_files_exact item depth :
  fst (extract item depth)
  = if depth_limit <? depth then []
    else List.filter (fun s => path_exists (posixpath.join "docs" s))
                     (leaves_within item (depth_limit - depth)).
Proof.
  destruct (Nat.ltb_spec depth_limit depth) as [H|H].
  - by rewrite extract_past_limit.
  - by apply extract_files_within.
Qed.

End FlattenerOrder.

(** With levels for the whole height nothing is left out. *)
Lemma leaves_within_height item :
  forall levels, height item <= levels -> leaves_within item levels = leaves item.
Proof.
  induction item as [s|items IH|entries IH| | | |] using pyval_nested_ind;
    intros levels Hfit; try reflexivity.
  - cbn [height] in Hfit. destruct levels as [|k]; [lia|].
    cbn [leaves_within leaves]. rewrite !flat_map_concat_map. f_equal.
    apply map_ext_Forall. rewrite Forall_forall in IH |- *. intros x Hx.
    apply IH; [done|].
    assert (height x <= max_list (map height items)); [|lia].
    apply max_list_elem_of_le, list_elem_of_In, in_map. by apply list_elem_of_In.
  - cbn [height] in Hfit. destruct levels as [|k]; [lia|].
    cbn [leaves_within leaves]. rewrite !flat_map_concat_map. f_equal.
    apply map_ext_Forall. rewrite Forall_forall in IH |- *. intros x Hx.
    apply IH; [done|].
    assert (height (snd x)
            <= max_list (map (fun kv => height (snd kv)) entries)); [|lia].
    apply max_list_elem_of_le, list_elem_of_In.
    apply (in_map (fun kv => height (snd kv))). by apply list_elem_of_In.
Qed.

(** ** The flattener on shared and cyclic values *)

Section AliasedFacts.

Variable path_exists : string -> bool.
Variable h : Aliased.heap.

Lemma aliased_for_acc_fold {X} (body : X -> option (Err (list string)))
      (g : X -> Err (list string)) xs (acc : Err (list string)) :
  Forall (fun x => body x = Some (g x)) xs ->
  fold_left (fun acc x =>
               a ← acc;
               r ← body x;
               Some (fst a ++ fst r, snd a ++ snd r))
            xs (Some acc)
  = Some (fst acc ++ concat (map (fun x => fst (g x)) xs),
          snd acc ++ concat (map (fun x => snd (g x)) xs)).
Proof.
  intros Hall. revert acc.
  induction Hall as [|x xs Hx _ IH]; intros [files log]; simpl.
  - by rewrite !app_nil_r.
  - rewrite Hx. simpl. rewrite IH. simpl. by rewrite <- !app_assoc.
Qed.

Lemma aliased_for_acc_some {X} (body : X -> option (Err (list string)))
      (g : X -> Err (list string)) xs :
  Forall (fun x => body x = Some (g x)) xs ->
  Aliased.for_acc body xs []
  = Some (concat (map (fun x => fst (g x)) xs),
          concat (map (fun x => snd (g x)) xs)).
Proof.
  intros Hall. exact (aliased_for_acc_fold body g xs ([], []) Hall).
Qed.

(** With a frame for every depth up to the one past the limit, the call
    returns, and returns what the flattener returns on the unfolding. *)
Lemma aliased_extract_unfold frames :
  forall item depth,
    depth_limit < frames + depth ->
    Aliased.extract_md_files path_exists h (S frames) item depth
    = Some (extract_md_files path_exists
              (Aliased.unfold h (S depth_limit - depth) item) depth).
Proof.
  induction frames as [|frames IH]; intros item depth Hfuel;
    cbn [Aliased.extract_md_files].
  - rewrite extract_past_limit by lia.
    by destruct (Nat.ltb_spec depth_limit depth); [|lia].
  - destruct (Nat.ltb_spec depth_limit depth) as [Hd|Hd].
    { by rewrite extract_past_limit by lia. }
    rewrite extract_within_limit by lia.
    replace (S depth_limit - depth) with (S (depth_limit - depth)) by lia.
    cbn [Aliased.unfold].
    assert (Hnext : forall sub,
               Aliased.extract_md_files path_exists h (S frames) sub (depth + 1)
               = Some (extract_md_files path_exists
                         (Aliased.unfold h (depth_limit - depth) sub)
                         (depth + 1))).
    { intros sub. rewrite IH by lia.
      by replace (S depth_limit - (depth + 1)) with (depth_limit - depth)
        by lia. }
    destruct (h item) as [s|items|entries| | | |]; try reflexivity.
    + by destruct (path_exists _).
    + rewrite (aliased_for_acc_some _
                 (fun sub => extract_md_files path_exists
                               (Aliased.unfold h (depth_limit - depth) sub)
                               (depth + 1))).
      * by rewrite !map_map.
      * apply Forall_forall. intros sub _. apply Hnext.
    + rewrite (aliased_for_acc_some _
                 (fun kv => extract_md_files path_exists
                              (Aliased.unfold h (depth_limit - depth) (snd kv))
                              (depth + 1))).
      * by rewrite !map_map.
      * apply Forall_forall. intros kv _. apply Hnext.
Qed.

End AliasedFacts.

(** ** Paths that are never empty *)

Lemma append_nonempty_r a b : b <> "" -> a +:+ b <> "".
Proof. intros Hb. destruct a; simpl; [done|discriminate]. Qed.

Lemma join_nonempty a b : b <> "" -> posixpath.join a b <> "".
Proof.
  intros Hb. unfold posixpath.join.
  destruct (posixpath.startswith_sep b); [done|].
  destruct (_ || _); repeat apply append_nonempty_r; done.
Qed.

Lemma replace_backslash_nonempty s : s <> "" -> replace_backslash s <> "".
Proof. destruct s; [done|discriminate]. Qed.

Lemma endswith_assets_nonempty d : endswith d assets_suffix = true -> d <> "".
Proof. intros H ->. discriminate H. Qed.

Lemma relpath_some cwd path start :
  path <> "" -> is_Some (posixpath.relpath cwd path start).
Proof.
  intros Hp. unfold posixpath.relpath.
  destruct path; [done|]. cbn [posixpath.is_empty].
  destruct (_ ++ _); eauto.
Qed.

(** ** The discoverer *)

Lemma for_opt_none {X S} (body : S -> X -> option S) xs :
  fold_left (fun acc x => s ← acc; body s x) xs None = None.
Proof. induction xs; simpl; auto. Qed.

Lemma for_opt_nil {X S} (body : S -> X -> option S) init :
  for_opt body [] init = Some init.
Proof. reflexivity. Qed.

Lemma for_opt_cons {X S} (body : S -> X -> option S) x xs init :
  for_opt body (x :: xs) init = s ← body init x; for_opt body xs s.
Proof.
  unfold for_opt. simpl. destruct (body init x); simpl; [done|].
  apply for_opt_none.
Qed.

Section DiscovererFacts.

Variable cwd : string.
Variable tree_at : string -> option dirtree.

(** One match: the joined path with separators normalized, its
    [dirname], its path relative to the root, and that one joined under
    [docs]. *)
Lemma asset_variants_some root dirpath d :
  endswith d assets_suffix = true ->
  exists rel,
    posixpath.relpath cwd (replace_backslash (posixpath.join dirpath d)) root
    = Some rel
    /\ asset_variants cwd root dirpath d
       = Some [ replace_backslash (posixpath.join dirpath d);
                replace_backslash
                  (posixpath.dirname
                     (replace_backslash (posixpath.join dirpath d)));
                replace_backslash rel;
                replace_backslash
                  (posixpath.join "docs" (replace_backslash rel)) ].
Proof.
  intros Hd.
  destruct (relpath_some cwd (replace_backslash (posixpath.join dirpath d)) root)
    as [rel Hrel].
  { by apply replace_backslash_nonempty, join_nonempty,
       endswith_assets_nonempty. }
  exists rel. split; [done|]. unfold asset_variants. by rewrite Hrel.
Qed.

Lemma scan_dirnames_spec root dirpath dirnames :
  forall acc,
  exists found,
    scan_dirnames cwd root dirpath dirnames acc = Some found
    /\ forall x, x ∈ found <->
                 x ∈ acc \/ exists d, d ∈ dirnames /\ variant_of cwd root dirpath d x.
Proof.
  unfold scan_dirnames.
  induction dirnames as [|d ds IH]; intros acc.
  - exists acc. split; [done|]. intros x. split; [by left|].
    intros [H|(d & Hd & _)]; [done|]. by apply elem_of_nil in Hd.
  - rewrite for_opt_cons.
    destruct (endswith d assets_suffix) eqn:Hsuffix.
    + assert (exists vs, asset_variants cwd root dirpath d = Some vs)
        as [vs Hvs].
      { destruct (asset_variants_some root dirpath d Hsuffix)
          as (rel & _ & Hvs). eauto. }
      rewrite Hvs. cbn [mbind option_bind].
      destruct (IH (acc ∪ list_to_set vs)) as (found & Hfound & Hmem).
      exists found. split; [exact Hfound|]. intros x. rewrite Hmem.
      rewrite elem_of_union, elem_of_list_to_set. split.
      * intros [[H|H]|(d' & Hd' & Hv)].
        -- by left.
        -- right. exists d. split; [left|]. split; [done|]. eauto.
        -- right. exists d'. split; [by right|done].
      * intros [H|(d' & Hd' & Hv)]; [by left; left|].
        apply elem_of_cons in Hd' as [->|Hd'].
        -- left. right. destruct Hv as (_ & vs' & Hvs' & Hx).
           rewrite Hvs in Hvs'. by injection Hvs' as <-.
        -- right. eauto.
    + cbn [mbind option_bind].
      destruct (IH acc) as (found & Hfound & Hmem).
      exists found. split; [exact Hfound|]. intros x. rewrite Hmem. split.
      * intros [H|(d' & Hd' & Hv)]; [by left|].
        right. exists d'. split; [by right|done].
      * intros [H|(d' & Hd' & Hv)]; [by left|].
        apply elem_of_cons in Hd' as [->|Hd'].
        -- destruct Hv as (Hv & _). congruence.
        -- right. eauto.
Qed.

Lemma scan_steps_spec root steps :
  forall acc,
  exists found,
    for_opt (fun acc step => scan_dirnames cwd root (fst step) (snd step) acc)
            steps acc
    = Some found
    /\ forall x, x ∈ found <->
                 x ∈ acc
                 \/ exists dirpath dirnames d,
                     (dirpath, dirnames) ∈ steps /\ d ∈ dirnames
                     /\ variant_of cwd root dirpath d x.
Proof.
  induction steps as [|[dirpath dirnames] steps IH]; intros acc.
  - exists acc. split; [done|]. intros x. split; [by left|].
    intros [H|(dp & dn & d & Hin & _)]; [done|]. by apply elem_of_nil in Hin.
  - rewrite for_opt_cons. cbn [fst snd].
    destruct (scan_dirnames_spec root dirpath dirnames acc)
      as (mid & Hmid & Hmem1).
    rewrite Hmid. cbn [mbind option_bind].
    destruct (IH mid) as (found & Hfound & Hmem2).
    exists found. split; [exact Hfound|]. intros x.
    rewrite Hmem2, Hmem1. split.
    + intros [[H|(d & Hd & Hv)]|(dp & dn & d & Hin & Hd & Hv)].
      * by left.
      * right. exists dirpath, dirnames, d. split; [left|done].
      * right. exists dp, dn, d. split; [by right|done].
    + intros [H|(dp & dn & d & Hin & Hd & Hv)]; [by left; left|].
      apply elem_of_cons in Hin as [Heq|Hin].
      * injection Heq as -> ->. left. right. eauto.
      * right. exists dp, dn, d. eauto.
Qed.

(** The discoverer never raises, returns no string twice, and returns
    exactly the strings recorded for the matches the walk comes by. *)
Lemma find_asset_dirs_spec root :
  exists dirs,
    find_asset_dirs cwd tree_at root = Some dirs
    /\ NoDup dirs
    /\ forall x, x ∈ dirs <->
                 exists dirpath dirnames d,
                   (dirpath, dirnames) ∈ os_walk tree_at root
                   /\ d ∈ dirnames /\ variant_of cwd root dirpath d x.
Proof.
  unfold find_asset_dirs, asset_dir_set.
  destruct (scan_steps_spec root (os_walk tree_at root) ∅)
    as (found & Hfound & Hmem).
  rewrite Hfound. exists (elements found). split; [done|].
  split; [apply NoDup_elements|].
  intros x. rewrite elem_of_elements, Hmem. split.
  - intros [H|H]; [|done]. by apply not_elem_of_empty in H.
  - by right.
Qed.

(** ** The walk reaches every directory *)


End DiscovererFacts.

(** ** The program, phase by phase *)

Lemma cleanup_trace w :
  cleanup w
  = (if w_exists_after w media_dir then
       [ Rmtree media_dir;
         match w_rmtree w media_dir with
         | None => Stdout ("Cleaned up temporary files in " +:+ media_dir)
         | Some e => Stderr ("Error cleaning up " +:+ media_dir +:+ ": " +:+ e)
         end ]
     else [],
     Value tt).
Proof.
  unfold cleanup. destruct (w_exists_after w media_dir); [|done].
  by destruct (w_rmtree w media_dir).
Qed.

Lemma report_trace w returncode out err :
  report w returncode out err
  = (Stdout out
       :: (if truthy err then [Stderr err] else [])
       ++ (if (returncode =? 0)%Z then fst (cleanup w)
           else [Stderr ("Pandoc failed with return code " +:+ pretty returncode)]),
     if (returncode =? 0)%Z then Value tt else Exit 1).
Proof.
  unfold report. rewrite cleanup_trace.
  destruct (truthy err), (returncode =? 0)%Z; reflexivity.
Qed.

Section MainFacts.

Variable w : world.
Variable entries : list (string * pyval).
Variables md_files warnings asset_dirs : list string.

Hypothesis Hconfig : w_config w = Some (PDict entries).
Hypothesis Hnav :
  extract_md_files (w_exists w)
                   (default (PList []) (assoc_get entries "nav")) 0
  = (md_files, warnings).
Hypothesis Hassets :
  find_asset_dirs (w_cwd w) (w_tree w) "docs" = Some asset_dirs.

#[local] Abbreviation cmd := (build_command (w_exists w) md_files asset_dirs).

(** Up to the call of the tool only warnings are printed; what follows
    is the tool's phase. *)
Lemma main_phases :
  main w
  = (map Stderr warnings
       ++ fst (result <- run_tool w cmd ;;
               let '(returncode, out, err) := result in
               report w returncode out err)%run,
     snd (result <- run_tool w cmd ;;
          let '(returncode, out, err) := result in
          report w returncode out err)%run).
Proof.
  unfold main, load_config, nav_md_files, config_get. rewrite Hconfig.
  cbn [Run.of_option Run.ret Run.bind app].
  rewrite Hnav, Hassets.
  cbn [Run.of_err Run.of_option Run.ret Run.bind app fst snd].
  by destruct (Run.bind (run_tool w cmd) _) as [t e].
Qed.

Lemma main_timed_out text out err :
  w_tool w cmd tool_timeout = TimeoutExpired text out err ->
  main w
  = (map Stderr warnings
       ++ [ Invoke cmd tool_timeout;
            Stderr ("Pandoc timed out: " +:+ text);
            Stdout ("stdout: " +:+ out);
            Stderr ("stderr: " +:+ err) ],
     Exit 1).
Proof.
  intros Htool. rewrite main_phases. unfold run_tool. by rewrite Htool.
Qed.

Lemma main_completed returncode out err :
  w_tool w cmd tool_timeout = Completed returncode out err ->
  main w
  = (map Stderr warnings
       ++ Invoke cmd tool_timeout :: fst (report w returncode out err),
     snd (report w returncode out err)).
Proof.
  intros Htool. rewrite main_phases. unfold run_tool. rewrite Htool.
  cbn [Run.emit Run.ret Run.bind app].
  by destruct (report w returncode out err).
Qed.

(** Whatever the tool does, it is called once the warnings are out. *)
Lemma main_invokes :
  exists rest,
    fst (main w) = map Stderr warnings ++ Invoke cmd tool_timeout :: rest.
Proof.
  rewrite main_phases. unfold run_tool. cbn [fst].
  destruct (w_tool w cmd tool_timeout) as [returncode out err|text out err|exc].
  - cbn [Run.emit Run.ret Run.bind app].
    destruct (report w returncode out err) as [t e]. eauto.
  - eauto.
  - eauto.
Qed.

End MainFacts.

Lemma script_main w :
  script w = (fst (main w), exit_status (snd (main w))).
Proof. unfold script. by destruct (main w). Qed.

Lemma invocations_app t1 t2 :
  invocations (t1 ++ t2) = invocations t1 ++ invocations t2.
Proof. apply omap_app. Qed.

Lemma invocations_stderr lines : invocations (map Stderr lines) = [].
Proof. induction lines; [done|]. simpl. exact IHlines. Qed.

(** ** Sorting a set of strings *)

Lemma sorted_set_sorted xs : Sorted String.le (sorted_set xs).
Proof. apply (Sorted_merge_sort String.le). Qed.

Lemma sorted_set_permutation xs :
  sorted_set xs ≡ₚ elements (list_to_set xs : gset string).
Proof. apply merge_sort_Permutation. Qed.

Lemma sorted_set_nodup xs : NoDup (sorted_set xs).
Proof. rewrite sorted_set_permutation. apply NoDup_elements. Qed.

Lemma sorted_set_elem x xs : x ∈ sorted_set xs <-> x ∈ xs.
Proof.
  rewrite sorted_set_permutation, elem_of_elements.
  apply elem_of_list_to_set.
Qed.

Lemma base_dirs_elem path_exists x :
  x ∈ base_dirs path_exists <-> x ∈ fixed_base_dirs.
Proof.
  unfold base_dirs. destruct (path_exists parent_assets); [|done].
  rewrite elem_of_app. split; [|by left].
  intros [H|H]; [done|].
  apply list_elem_of_singleton in H as ->. do 3 right. left.
Qed.

(** ** The input files of the command *)

Lemma truthy_nonempty s : truthy s = true <-> s <> "".
Proof. by destruct s. Qed.

Lemma join_docs_root md : posixpath.join "docs" md = "docs/" -> md = "".
Proof.
  unfold posixpath.join.
  destruct md as [|c md]; [done|].
  destruct (posixpath.startswith_sep (String c md)) eqn:E.
  - intros H. rewrite H in E. discriminate E.
  - cbn. intros H. discriminate H.
Qed.

Lemma md_files_prefixed_spec md_files :
  md_files_prefixed md_files
  = map (posixpath.join "docs") (filter (fun md => md <> "") md_files).
Proof.
  unfold md_files_prefixed. f_equal.
  apply list_filter_iff. intros md. apply truthy_nonempty.
Qed.

Lemma md_files_prefixed_no_root md_files :
  ("" ∉ md_files_prefixed md_files) /\ ("docs/" ∉ md_files_prefixed md_files).
Proof.
  unfold md_files_prefixed.
  split; intros Hin; apply list_elem_of_In, in_map_iff in Hin;
    destruct Hin as (md & Heq & Hin);
    apply list_elem_of_In, list_elem_of_filter in Hin;
    destruct Hin as (Htruthy & _); apply truthy_nonempty in Htruthy.
  - by apply (join_nonempty "docs" md).
  - by apply join_docs_root in Heq.
Qed.

(** * The claims *)

(** ** The flattener *)

(** C1: the flattener returns the paths in depth-first, left-to-right
    order.  At every depth the files of a sequence are the concatenation
    of the files of its elements, in element order, and the files of a
    mapping are the concatenation of the files of its values, in iteration
    order; the result is a function of the value, and it is a subsequence
    of the value's string leaves listed depth-first.  The result is
    exactly this: the string leaves of the value that the depth limit
    leaves in reach, listed depth-first and left to right, those kept
    whose file exists; and when the value is no higher than the levels in
    reach, these leaves are all its leaves. *)
Theorem C1_flattener_depth_first_order :
  forall (path_exists : string -> bool) (depth : nat),
    (forall items,
        fst (extract_md_files path_exists (PList items) depth)
        = concat (map (fun sub => fst (extract_md_files path_exists sub (depth + 1)))
                      items))
    /\ (forall entries,
           fst (extract_md_files path_exists (PDict entries) depth)
           = concat (map (fun kv => fst (extract_md_files path_exists (snd kv)
                                                          (depth + 1)))
                         entries))
    /\ (forall item,
           fst (extract_md_files path_exists item depth) `sublist_of` leaves item)
    /\ (forall item,
           fst (extract_md_files path_exists item depth)
           = if depth_limit <? depth then []
             else List.filter
                    (fun s => path_exists (posixpath.join "docs" s))
                    (leaves_within item (depth_limit - depth)))
    /\ (forall item k, leaves_within item (height item + k) = leaves item).
Proof.
  intros path_exists depth. split; [|split; [|split; [|split]]].
  - intros items. apply extract_files_list.
  - intros entries. apply extract_files_dict.
  - intros item. apply extract_sublist_leaves.
  - intros item. apply extract_files_exact.
  - intros item k. apply leaves_within_height. lia.
Qed.

(** C3: the recursion of the flattener is bounded by the depth limit.  On
    any value, shared or cyclic, a call at [depth] returns within
    [102 - depth] nested frames, with the result of the flattener on the
    finite unfolding of the value; a call past depth 100 returns no file
    and prints the recursion warning, whatever the value; and 150 nested
    single-element lists, or any nesting deeper than the limit, give the
    empty list and that one warning. *)
Theorem C3_flattener_recursion_bounded :
  forall (path_exists : string -> bool),
    (forall h item depth,
        Aliased.extract_md_files path_exists h
                                 (S (S depth_limit - depth)) item depth
        = Some (extract_md_files path_exists
                  (Aliased.unfold h (S depth_limit - depth) item) depth))
    /\ (forall item k,
           extract_md_files path_exists item (S depth_limit + k)
           = ([], [recursion_warning]))
    /\ (forall leaf k,
           extract_md_files path_exists (nest (S depth_limit + k) leaf) 0
           = ([], [recursion_warning]))
    /\ (forall leaf,
           extract_md_files path_exists (nest 150 leaf) 0
           = ([], [recursion_warning])).
Proof.
  intros path_exists. split; [|split; [|split]].
  - intros h item depth. apply aliased_extract_unfold. lia.
  - intros item k. apply extract_past_limit. lia.
  - intros leaf k. apply extract_nest_past_limit. lia.
  - intros leaf. apply extract_nest_past_limit. unfold depth_limit. lia.
Qed.

(** C4 as stated fails for a leaf that lies deeper than the limit: below
    101 lists a leaf whose file exists is not returned, and a leaf whose
    file is missing gets no warning that names its path. *)
Lemma C4_counterexample_leaf_past_limit :
  let present := fun _ : string => true in
  let absent := fun _ : string => false in
  present (posixpath.join "docs" "a.md") = true
  /\ extract_md_files present (nest 101 (PStr "a.md")) 0
     = ([], [recursion_warning])
  /\ absent (posixpath.join "docs" "b.md") = false
  /\ extract_md_files absent (nest 101 (PStr "b.md")) 0
     = ([], [recursion_warning]).
Proof. vm_compute. repeat split. Qed.

(** C4, amended: for a string leaf reached at a depth of at most 100, the
    leaf alone is returned and nothing is printed when the file joined
    under [docs] exists; otherwise nothing is returned and exactly one
    warning, naming the joined path, is printed.  At any depth, every
    returned path passed the existence test, so a missing leaf is never
    part of the output. *)
Theorem C4_string_leaf_within_limit
        (path_exists : string -> bool) (s : string) (depth : nat)
        (Hdepth : depth <= depth_limit) :
  extract_md_files path_exists (PStr s) depth
  = (if path_exists (posixpath.join "docs" s) then ([s], [])
     else ([], ["Warning: Markdown file not found: "
                  +:+ posixpath.join "docs" s]))
  /\ (forall item d,
         Forall (fun md => path_exists (posixpath.join "docs" md) = true)
                (fst (extract_md_files path_exists item d))).
Proof.
  split.
  - by rewrite extract_within_limit.
  - intros item d. apply extract_files_exist.
Qed.

Lemma C4_string_leaf_within_limit_witness :
  let path_exists := fun p : string => bool_decide (p = "docs/a.md") in
  0 <= depth_limit
  /\ extract_md_files path_exists (PStr "b.md") 0
     = ([], ["Warning: Markdown file not found: docs/b.md"])
  /\ extract_md_files path_exists (PStr "a.md") 0 = (["a.md"], []).
Proof.
  intros path_exists.
  split; [unfold depth_limit; lia|]. split.
  - apply (C4_string_leaf_within_limit path_exists "b.md" 0).
    unfold depth_limit; lia.
  - reflexivity.
Defined.

(** C9 as stated fails past the limit: a number below 101 lists is
    called at depth 101, where the warning is printed whatever the value
    is. *)
Lemma C9_counterexample_scalar_past_limit :
  is_other (PInt 5) = true
  /\ extract_md_files (fun _ => true) (PInt 5) 101 = ([], [recursion_warning])
  /\ extract_md_files (fun _ => true) (nest 101 (PInt 5)) 0
     = ([], [recursion_warning]).
Proof. vm_compute. repeat split. Qed.

(** C9, amended: a value that is neither a string, nor a sequence, nor a
    mapping, reached at a depth of at most 100, contributes no file and
    prints nothing. *)
Theorem C9_other_value_silent
        (path_exists : string -> bool) (v : pyval) (depth : nat)
        (Hother : is_other v = true) (Hdepth : depth <= depth_limit) :
  extract_md_files path_exists v depth = ([], []).
Proof.
  rewrite extract_within_limit by done.
  by destruct v.
Qed.

Lemma C9_other_value_silent_witness :
  is_other PNone = true
  /\ 0 <= depth_limit
  /\ extract_md_files (fun _ => false) PNone 0 = ([], []).
Proof.
  split; [reflexivity|]. split; [unfold depth_limit; lia|].
  apply (C9_other_value_silent (fun _ => false) PNone 0).
  - reflexivity.
  - unfold depth_limit; lia.
Defined.

(** C2 as stated fails: the program reads the key [nav], so a
    configuration that holds the list under [navigation] flattens to the
    empty list and prints no warning. *)
Lemma C2_counterexample_navigation_key :
  let path_exists :=
    fun p : string => bool_decide (p ∈ ["docs/intro.md"; "docs/a.md"]) in
  path_exists "docs/intro.md" = true
  /\ path_exists "docs/a.md" = true
  /\ path_exists "docs/b.md" = false
  /\ nav_md_files path_exists (PDict [("navigation", example_nav)])
     = ([], Value []).
Proof. vm_compute. repeat split. Qed.

(** C2, amended: for the configuration [{"nav": ["intro.md", {"Part 1":
    ["a.md", "b.md"]}]}], when [docs/intro.md] and [docs/a.md] exist and
    [docs/b.md] does not, the flattened list is [["intro.md", "a.md"]] in
    that order and exactly one warning is printed, for [docs/b.md]. *)
Theorem C2_nav_example_flattened
        (path_exists : string -> bool)
        (Hintro : path_exists "docs/intro.md" = true)
        (Ha : path_exists "docs/a.md" = true)
        (Hb : path_exists "docs/b.md" = false) :
  nav_md_files path_exists (PDict [("nav", example_nav)])
  = ([Stderr "Warning: Markdown file not found: docs/b.md"],
     Value ["intro.md"; "a.md"]).
Proof.
  vm_compute. rewrite Hintro, Ha, Hb. reflexivity.
Qed.

Lemma C2_nav_example_flattened_witness :
  let path_exists :=
    fun p : string => bool_decide (p ∈ ["docs/intro.md"; "docs/a.md"]) in
  nav_md_files path_exists (PDict [("nav", example_nav)])
  = ([Stderr "Warning: Markdown file not found: docs/b.md"],
     Value ["intro.md"; "a.md"]).
Proof.
  intros path_exists.
  apply (C2_nav_example_flattened path_exists); reflexivity.
Defined.

(** ** The asset directory discoverer *)




(** ** The command line *)

(** C6: the argument that follows [--resource-path] in the command the
    program runs is the colon-join of a list that is sorted, holds no
    string twice, and holds exactly the members of the fixed base list
    and of the discovered asset directories; the sibling [../assets] is
    one of them. *)
Theorem C6_resource_path_argument
        (w : world) (entries : list (string * pyval))
        (md_files warnings asset_dirs : list string)
        (Hconfig : w_config w = Some (PDict entries))
        (Hnav : extract_md_files (w_exists w)
                  (default (PList []) (assoc_get entries "nav")) 0
                = (md_files, warnings))
        (Hassets : find_asset_dirs (w_cwd w) (w_tree w) "docs"
                   = Some asset_dirs) :
  exists cmd rest dirs,
    fst (script w) = map Stderr warnings ++ Invoke cmd 300 :: rest
    /\ cmd !! 7 = Some "--resource-path"
    /\ cmd !! 8 = Some (String.concat ":" dirs)
    /\ Sorted String.le dirs
    /\ NoDup dirs
    /\ (forall x,
           x ∈ dirs <->
           x ∈ ["."; "docs"; "assets"; "../assets"] \/ x ∈ asset_dirs)
    /\ "../assets" ∈ dirs.
Proof.
  destruct (main_invokes w entries md_files warnings asset_dirs
                         Hconfig Hnav Hassets) as [rest Hrest].
  assert (Hmem : forall x,
             x ∈ all_dirs (base_dirs (w_exists w)) asset_dirs <->
             x ∈ fixed_base_dirs \/ x ∈ asset_dirs).
  { intros x. unfold all_dirs.
    by rewrite sorted_set_elem, elem_of_app, base_dirs_elem. }
  exists (build_command (w_exists w) md_files asset_dirs), rest,
         (all_dirs (base_dirs (w_exists w)) asset_dirs).
  split; [by rewrite script_main|].
  split; [reflexivity|]. split; [reflexivity|].
  split; [apply sorted_set_sorted|]. split; [apply sorted_set_nodup|].
  split; [exact Hmem|].
  apply Hmem. left. do 3 right. left.
Qed.

Lemma C6_resource_path_argument_witness :
  exists cmd rest,
    fst (script (example_world (Completed 0 "" "") None))
    = Stderr "Warning: Markdown file not found: docs/b.md"
        :: Invoke cmd 300 :: rest
    /\ cmd !! 8
       = Some ".:../assets:assets:ch1.assets:docs:docs/ch1.assets:docs/sub:docs/sub/ch2.assets:sub/ch2.assets".
Proof.
  destruct (C6_resource_path_argument
              (example_world (Completed 0 "" "") None)
              [("site_name", PStr "Hello Algo");
               ("nav", PList [example_nav; PStr ""])]
              ["intro.md"; "a.md"; ""]
              ["Warning: Markdown file not found: docs/b.md"]
              (default [] (find_asset_dirs "/home/u/en"
                             (w_tree (example_world (Completed 0 "" "") None))
                             "docs")))
    as (cmd & rest & dirs & Htrace & _ & _ & _).
  - reflexivity.
  - vm_compute. reflexivity.
  - vm_compute. reflexivity.
  - exists cmd, rest. split; [exact Htrace|].
    vm_compute in Htrace. injection Htrace as <- <-. reflexivity.
Defined.

(** C10 as stated fails for an entry that is an absolute path: joining
    it under [docs] returns it unchanged, so the input file is not
    prefixed with [docs]. *)
Lemma C10_counterexample_absolute_leaf :
  fst (extract_md_files (w_exists absolute_leaf_world)
         (PList [PStr "/srv/x.md"]) 0) = ["/srv/x.md"]
  /\ exists cmd rest,
      fst (script absolute_leaf_world) = Invoke cmd 300 :: rest
      /\ drop 19 cmd = ["/srv/x.md"]
      /\ String.prefix "docs" "/srv/x.md" = false.
Proof.
  split; [reflexivity|]. eexists _, _. split; [vm_compute; reflexivity|].
  split; reflexivity.
Qed.

(** C10, amended: the arguments that follow the 19 fixed ones in the
    command the program runs are the flattened entries that are not the
    empty string, each joined under [docs] by [os.path.join], in flattened
    order: an entry that does not start with a slash is prefixed with
    [docs/].  An empty leaf is flattened when [docs/], which is what
    joining it under [docs] gives, exists; neither it nor [docs/] is ever
    among the input files. *)
Theorem C10_input_file_arguments
        (w : world) (entries : list (string * pyval))
        (md_files warnings asset_dirs : list string)
        (Hconfig : w_config w = Some (PDict entries))
        (Hnav : extract_md_files (w_exists w)
                  (default (PList []) (assoc_get entries "nav")) 0
                = (md_files, warnings))
        (Hassets : find_asset_dirs (w_cwd w) (w_tree w) "docs"
                   = Some asset_dirs) :
  exists cmd rest,
    fst (script w) = map Stderr warnings ++ Invoke cmd 300 :: rest
    /\ length (take 19 cmd) = 19
    /\ drop 19 cmd
       = map (posixpath.join "docs") (filter (fun md => md <> "") md_files)
    /\ (forall md,
           posixpath.startswith_sep md = false ->
           posixpath.join "docs" md = "docs/" +:+ md)
    /\ ("" ∉ drop 19 cmd)
    /\ ("docs/" ∉ drop 19 cmd)
    /\ posixpath.join "docs" "" = "docs/"
    /\ extract_md_files (w_exists w) (PStr "") 0
       = if w_exists w "docs/" then ([""], [])
         else ([], ["Warning: Markdown file not found: docs/"]).
Proof.
  destruct (main_invokes w entries md_files warnings asset_dirs
                         Hconfig Hnav Hassets) as [rest Hrest].
  exists (build_command (w_exists w) md_files asset_dirs), rest.
  split; [by rewrite script_main|].
  split; [reflexivity|].
  change (drop 19 (build_command (w_exists w) md_files asset_dirs))
    with (md_files_prefixed md_files).
  split; [apply md_files_prefixed_spec|].
  split; [intros md Hrel; unfold posixpath.join; by rewrite Hrel|].
  split; [apply md_files_prefixed_no_root|].
  split; [apply md_files_prefixed_no_root|].
  split; reflexivity.
Qed.

Lemma C10_input_file_arguments_witness :
  let w := example_world (Completed 0 "" "") None in
  fst (extract_md_files (w_exists w)
         (PList [example_nav; PStr ""]) 0) = ["intro.md"; "a.md"; ""]
  /\ exists cmd rest,
      fst (script w)
      = Stderr "Warning: Markdown file not found: docs/b.md"
          :: Invoke cmd 300 :: rest
      /\ drop 19 cmd = ["docs/intro.md"; "docs/a.md"].
Proof.
  intros w. split; [reflexivity|].
  destruct (C10_input_file_arguments
              w
              [("site_name", PStr "Hello Algo");
               ("nav", PList [example_nav; PStr ""])]
              ["intro.md"; "a.md"; ""]
              ["Warning: Markdown file not found: docs/b.md"]
              (default [] (find_asset_dirs "/home/u/en" (w_tree w) "docs")))
    as (cmd & rest & Htrace & _ & Hinputs & _).
  - reflexivity.
  - vm_compute. reflexivity.
  - vm_compute. reflexivity.
  - exists cmd, rest. split; [exact Htrace|].
    rewrite Hinputs. vm_compute. reflexivity.
Defined.

(** ** Running the tool *)

(** C7: when the call of the tool, made with a timeout of 300 seconds,
    raises [TimeoutExpired], the program prints the timeout message to
    the error stream, then the partial output, and exits with status 1;
    the tool was called once and is not called again. *)
Theorem C7_timeout_exits_one
        (w : world) (entries : list (string * pyval))
        (md_files warnings asset_dirs : list string)
        (text out err : string)
        (Hconfig : w_config w = Some (PDict entries))
        (Hnav : extract_md_files (w_exists w)
                  (default (PList []) (assoc_get entries "nav")) 0
                = (md_files, warnings))
        (Hassets : find_asset_dirs (w_cwd w) (w_tree w) "docs"
                   = Some asset_dirs)
        (Htimeout : w_tool w (build_command (w_exists w) md_files asset_dirs) 300
                    = TimeoutExpired text out err) :
  script w
  = (map Stderr warnings
       ++ [ Invoke (build_command (w_exists w) md_files asset_dirs) 300;
            Stderr ("Pandoc timed out: " +:+ text);
            Stdout ("stdout: " +:+ out);
            Stderr ("stderr: " +:+ err) ],
     1%Z)
  /\ invocations (fst (script w))
     = [build_command (w_exists w) md_files asset_dirs].
Proof.
  rewrite script_main.
  rewrite (main_timed_out w entries md_files warnings asset_dirs
                          Hconfig Hnav Hassets text out err Htimeout).
  cbn [fst snd exit_status]. split; [reflexivity|].
  rewrite invocations_app, invocations_stderr. reflexivity.
Qed.

Lemma C7_timeout_exits_one_witness :
  let w := example_world (TimeoutExpired "timed out after 300 seconds"
                                         "None" "None") None in
  snd (script w) = 1%Z
  /\ length (invocations (fst (script w))) = 1.
Proof.
  intros w.
  destruct (C7_timeout_exits_one
              w
              [("site_name", PStr "Hello Algo");
               ("nav", PList [example_nav; PStr ""])]
              ["intro.md"; "a.md"; ""]
              ["Warning: Markdown file not found: docs/b.md"]
              (default [] (find_asset_dirs "/home/u/en" (w_tree w) "docs"))
              "timed out after 300 seconds" "None" "None")
    as [Hscript Hcalls].
  - reflexivity.
  - vm_compute. reflexivity.
  - vm_compute. reflexivity.
  - reflexivity.
  - split.
    + rewrite Hscript. reflexivity.
    + rewrite Hcalls. reflexivity.
Defined.

(** C8: when the tool returns, its standard output is printed, and its
    standard error is printed exactly when it is not empty.  On a status
    other than 0 the status is reported on the error stream and the
    program exits with status 1, the temporary directory untouched.  On
    status 0 the directory [extracted-media], if it exists, is removed;
    a removal that fails is reported on the error stream, and in every
    case the program exits with status 0. *)
Theorem C8_completion_report_and_cleanup
        (w : world) (entries : list (string * pyval))
        (md_files warnings asset_dirs : list string)
        (returncode : Z) (out err : string)
        (Hconfig : w_config w = Some (PDict entries))
        (Hnav : extract_md_files (w_exists w)
                  (default (PList []) (assoc_get entries "nav")) 0
                = (md_files, warnings))
        (Hassets : find_asset_dirs (w_cwd w) (w_tree w) "docs"
                   = Some asset_dirs)
        (Hdone : w_tool w (build_command (w_exists w) md_files asset_dirs) 300
                 = Completed returncode out err) :
  script w
  = (map Stderr warnings
       ++ Invoke (build_command (w_exists w) md_files asset_dirs) 300
       :: Stdout out
       :: match err with
          | EmptyString => []
          | _ => [Stderr err]
          end
       ++ (if decide (returncode = 0%Z) then
             if w_exists_after w "extracted-media" then
               [ Rmtree "extracted-media";
                 match w_rmtree w "extracted-media" with
                 | None => Stdout "Cleaned up temporary files in extracted-media"
                 | Some e => Stderr ("Error cleaning up extracted-media: " +:+ e)
                 end ]
             else []
           else [Stderr ("Pandoc failed with return code " +:+ pretty returncode)]),
     if decide (returncode = 0%Z) then 0%Z else 1%Z).
Proof.
  rewrite script_main.
  rewrite (main_completed w entries md_files warnings asset_dirs
                          Hconfig Hnav Hassets returncode out err Hdone).
  rewrite report_trace, cleanup_trace. cbn [fst snd].
  destruct (decide (returncode = 0%Z)) as [->|Hne].
  - cbn [Z.eqb exit_status]. by destruct err.
  - apply Z.eqb_neq in Hne. rewrite Hne. cbn [exit_status]. by destruct err.
Qed.

Lemma C8_completion_report_and_cleanup_witness :
  script (example_world (Completed 0 "done" "") (Some "busy"))
  = ([ Stderr "Warning: Markdown file not found: docs/b.md";
       Invoke (build_command
                 (w_exists (example_world (Completed 0 "done" "") (Some "busy")))
                 ["intro.md"; "a.md"; ""]
                 (default [] (find_asset_dirs "/home/u/en"
                                (w_tree (example_world (Completed 0 "done" "")
                                                       (Some "busy")))
                                "docs")))
              300;
       Stdout "done";
       Rmtree "extracted-media";
       Stderr "Error cleaning up extracted-media: busy" ],
     0%Z).
Proof.
  apply (C8_completion_report_and_cleanup
           (example_world (Completed 0 "done" "") (Some "busy"))
           [("site_name", PStr "Hello Algo");
            ("nav", PList [example_nav; PStr ""])]
           ["intro.md"; "a.md"; ""]
           ["Warning: Markdown file not found: docs/b.md"]
           (default [] (find_asset_dirs "/home/u/en"
                          (w_tree (example_world (Completed 0 "done" "")
                                                 (Some "busy")))
                          "docs"))
           0%Z "done" "").
  - reflexivity.
  - vm_compute. reflexivity.
  - vm_compute. reflexivity.
  - reflexivity.
Defined.

(** * Further properties of the script *)

(** ** The flattener within the depth limit *)

Section FlattenerWithinLimit.

Variable path_exists : string -> bool.
#[local] Abbreviation extract := (extract_md_files path_exists).

Lemma present_leaves_concat {X} (f : X -> pyval) xs :
  List.filter (fun s => path_exists (posixpath.join "docs" s))
              (flat_map (fun x => leaves (f x)) xs)
  = concat (map (fun x => present_leaves path_exists (f x)) xs).
Proof.
  rewrite flat_map_concat_map, <- concat_filter_map, map_map. reflexivity.
Qed.

Lemma missing_leaf_warnings_concat {X} (f : X -> pyval) xs :
  map (fun s => missing_warning (posixpath.join "docs" s))
      (List.filter (fun s => negb (path_exists (posixpath.join "docs" s)))
                   (flat_map (fun x => leaves (f x)) xs))
  = concat (map (fun x => missing_leaf_warnings path_exists (f x)) xs).
Proof.
  rewrite flat_map_concat_map, <- concat_filter_map, concat_map, !map_map.
  reflexivity.
Qed.

Lemma max_list_map_elem {X} (g : X -> nat) xs x :
  x ∈ xs -> g x <= max_list (map g xs).
Proof.
  intros Hin. apply max_list_elem_of_le.
  apply list_elem_of_In, in_map_iff. exists x. split; [done|].
  by apply list_elem_of_In.
Qed.

Lemma extract_within_height item :
  forall depth,
    depth + height item <= depth_limit ->
    extract item depth
    = (present_leaves path_exists item, missing_leaf_warnings path_exists item).
Proof.
  induction item as [s|items IH|entries IH| | | |] using pyval_nested_ind;
    intros depth Hfit; rewrite extract_within_limit by lia;
    try reflexivity.
  - unfold present_leaves, missing_leaf_warnings. cbn.
    by destruct (path_exists _).
  - cbn [height] in Hfit.
    unfold present_leaves, missing_leaf_warnings. cbn [leaves].
    rewrite (present_leaves_concat (fun x => x)),
            (missing_leaf_warnings_concat (fun x => x)).
    f_equal; f_equal; apply map_ext_Forall;
      rewrite Forall_forall in IH |- *; intros x Hx;
      (rewrite IH; [done|done|]);
      pose proof (max_list_map_elem height items x Hx); lia.
  - cbn [height] in Hfit.
    unfold present_leaves, missing_leaf_warnings. cbn [leaves].
    rewrite (present_leaves_concat snd), (missing_leaf_warnings_concat snd).
    f_equal; f_equal; apply map_ext_Forall;
      rewrite Forall_forall in IH |- *; intros x Hx;
      (rewrite IH; [done|done|]);
      pose proof (max_list_map_elem (fun kv => height (snd kv)) entries x Hx);
      cbn beta in *; lia.
Qed.

End FlattenerWithinLimit.

Section FlattenerWarnings.

Variable path_exists : string -> bool.
#[local] Abbreviation extract := (extract_md_files path_exists).

(** What a warning of the flattener can be. *)
Lemma extract_warnings_kind item :
  forall depth,
    Forall (fun line =>
              line = recursion_warning
              \/ exists s,
                  s ∈ leaves item
                  /\ path_exists (posixpath.join "docs" s) = false
                  /\ line = missing_warning (posixpath.join "docs" s))
           (snd (extract item depth)).
Proof.
  induction item as [s|items IH|entries IH| | | |] using pyval_nested_ind;
    intros depth; rewrite extract_unfold;
    (destruct (depth_limit <? depth); [by repeat constructor|]);
    try by constructor.
  - cbn. destruct (path_exists _) eqn:E; [constructor|].
    constructor; [|constructor].
    right. exists s. split; [left|done].
  - cbn [snd leaves]. apply Forall_concat, Forall_map, Forall_forall.
    intros x Hx. rewrite Forall_forall in IH.
    eapply Forall_impl; [apply (IH x Hx)|].
    intros line [->|(s & Hs & Hmissing & ->)]; [by left|right].
    exists s. split; [|done].
    apply list_elem_of_In, in_flat_map. exists x.
    split; by apply list_elem_of_In.
  - cbn [snd leaves]. apply Forall_concat, Forall_map, Forall_forall.
    intros x Hx. rewrite Forall_forall in IH.
    eapply Forall_impl; [apply (IH x Hx)|].
    intros line [->|(s & Hs & Hmissing & ->)]; [by left|right].
    exists s. split; [|done].
    apply list_elem_of_In, in_flat_map. exists x.
    split; by apply list_elem_of_In.
Qed.

End FlattenerWarnings.

Lemma filter_split_length {A} (f : A -> bool) (l : list A) :
  length (List.filter f l) + length (List.filter (fun x => negb (f x)) l)
  = length l.
Proof.
  induction l as [|x l IH]; [done|]. simpl.
  destruct (f x); simpl; lia.
Qed.

(** X1: a navigation value with at most 100 nested containers is
    flattened in full: the result is its string leaves whose file exists,
    in document order, and the warnings are those of its other leaves, in
    document order, one for each; no recursion warning is printed, and
    every leaf is either returned or warned about. *)
Theorem X1_flattener_within_height
        (path_exists : string -> bool) (item : pyval)
        (Hfit : height item <= depth_limit) :
  extract_md_files path_exists item 0
  = (List.filter (fun s => path_exists (posixpath.join "docs" s)) (leaves item),
     map (fun s => "Warning: Markdown file not found: " +:+ posixpath.join "docs" s)
         (List.filter (fun s => negb (path_exists (posixpath.join "docs" s)))
                      (leaves item)))
  /\ length (fst (extract_md_files path_exists item 0))
     + length (snd (extract_md_files path_exists item 0))
     = length (leaves item).
Proof.
  rewrite extract_within_height by (simpl; lia).
  split; [reflexivity|].
  unfold present_leaves, missing_leaf_warnings. cbn [fst snd].
  rewrite length_map. apply filter_split_length.
Qed.

Lemma X1_flattener_within_height_witness :
  let path_exists :=
    fun p : string => bool_decide (p ∈ ["docs/intro.md"; "docs/a.md"]) in
  height example_nav <= depth_limit
  /\ extract_md_files path_exists example_nav 0
     = (["intro.md"; "a.md"], ["Warning: Markdown file not found: docs/b.md"]).
Proof.
  intros path_exists.
  split; [unfold depth_limit; cbn; lia|].
  apply (X1_flattener_within_height path_exists example_nav).
  unfold depth_limit; cbn; lia.
Defined.

(** X2: the keys of a mapping play no part: at every depth a mapping is
    flattened as the list of its values, files and warnings alike. *)
Theorem X2_mapping_keys_ignored :
  forall (path_exists : string -> bool) entries depth,
    extract_md_files path_exists (PDict entries) depth
    = extract_md_files path_exists (PList (map snd entries)) depth.
Proof.
  intros path_exists entries depth.
  rewrite (extract_unfold _ (PDict entries)), (extract_unfold _ (PList _)).
  by rewrite !map_map.
Qed.

(** X3: flattening a list from the top is flattening its parts one after
    the other: the files of [xs ++ ys] are those of [xs] followed by
    those of [ys], and so are the warnings. *)
Theorem X3_flatten_list_append :
  forall (path_exists : string -> bool) xs ys,
    extract_md_files path_exists (PList (xs ++ ys)) 0
    = (fst (extract_md_files path_exists (PList xs) 0)
         ++ fst (extract_md_files path_exists (PList ys) 0),
       snd (extract_md_files path_exists (PList xs) 0)
         ++ snd (extract_md_files path_exists (PList ys) 0)).
Proof.
  intros path_exists xs ys.
  rewrite !extract_within_limit by (unfold depth_limit; lia).
  cbn [fst snd]. by rewrite !map_app, !concat_app.
Qed.

(** X4: the limit is exact.  A string below at most 100 single-element
    lists is handled as the string itself, and below 101 lists it is cut:
    nothing is returned and the recursion warning is printed. *)
Theorem X4_depth_limit_boundary
        (path_exists : string -> bool) (s : string) (n : nat)
        (Hn : n <= depth_limit) :
  extract_md_files path_exists (nest n (PStr s)) 0
  = (if path_exists (posixpath.join "docs" s) then ([s], [])
     else ([], ["Warning: Markdown file not found: "
                  +:+ posixpath.join "docs" s]))
  /\ extract_md_files path_exists (nest (S depth_limit) (PStr s)) 0
     = ([], [recursion_warning]).
Proof.
  split.
  - rewrite extract_nest_within by lia.
    by rewrite extract_within_limit by lia.
  - apply extract_nest_past_limit. lia.
Qed.

Lemma X4_depth_limit_boundary_witness :
  100 <= depth_limit
  /\ extract_md_files (fun _ => true) (nest 100 (PStr "a.md")) 0
     = (["a.md"], [])
  /\ extract_md_files (fun _ => true) (nest 101 (PStr "a.md")) 0
     = ([], [recursion_warning]).
Proof.
  split; [unfold depth_limit; lia|].
  apply (X4_depth_limit_boundary (fun _ => true) "a.md" 100).
  unfold depth_limit; lia.
Defined.

(** X5: every warning the flattener prints is either the recursion
    warning or the warning for a string leaf of the value whose joined
    path does not exist. *)
Theorem X5_flattener_warning_kinds :
  forall (path_exists : string -> bool) item depth,
    Forall (fun line =>
              line = "Warning: Infinite recursion detected"
              \/ exists s,
                  s ∈ leaves item
                  /\ path_exists (posixpath.join "docs" s) = false
                  /\ line = "Warning: Markdown file not found: "
                              +:+ posixpath.join "docs" s)
           (snd (extract_md_files path_exists item depth)).
Proof. intros path_exists item depth. apply extract_warnings_kind. Qed.

(** ** A list that contains itself *)

Section SelfContaining.

Variable path_exists : string -> bool.
Variable h : Aliased.heap.
Variable r : Aliased.ref.
Hypothesis Hself : h r = Aliased.OList [r].

Lemma unfold_self levels : Aliased.unfold h levels r = nest levels PNone.
Proof.
  induction levels as [|k IH]; cbn [Aliased.unfold nest]; [done|].
  rewrite Hself. cbn [map]. by rewrite IH.
Qed.

Lemma extract_self_starved frames :
  forall depth,
    frames + depth <= S depth_limit ->
    Aliased.extract_md_files path_exists h frames r depth = None.
Proof.
  induction frames as [|frames IH]; intros depth Hfew; [done|].
  cbn [Aliased.extract_md_files].
  destruct (Nat.ltb_spec depth_limit depth) as [Hd|Hd]; [lia|].
  rewrite Hself. unfold Aliased.for_acc. cbn [fold_left].
  by rewrite IH by lia.
Qed.

End SelfContaining.

(** X6: on a list that contains itself the flattener stops at the limit.
    With 102 frames of stack the call returns no file and one recursion
    warning; the recursion is 102 calls deep, since with 101 frames it
    does not return. *)
Theorem X6_self_containing_list
        (path_exists : string -> bool) (h : Aliased.heap) (r : Aliased.ref)
        (Hself : h r = Aliased.OList [r]) :
  Aliased.extract_md_files path_exists h 102 r 0
  = Some ([], ["Warning: Infinite recursion detected"])
  /\ Aliased.extract_md_files path_exists h 101 r 0 = None.
Proof.
  split.
  - change 102 with (S (S depth_limit)).
    rewrite aliased_extract_unfold by lia.
    rewrite (unfold_self h r Hself).
    by rewrite extract_nest_past_limit by lia.
  - apply (extract_self_starved path_exists h r Hself).
    unfold depth_limit. lia.
Qed.

Lemma X6_self_containing_list_witness :
  Aliased.extract_md_files (fun _ => true) (fun _ => Aliased.OList [0]) 102 0 0
  = Some ([], ["Warning: Infinite recursion detected"])
  /\ Aliased.extract_md_files (fun _ => true) (fun _ => Aliased.OList [0]) 101 0 0
     = None.
Proof.
  apply (X6_self_containing_list (fun _ => true) (fun _ => Aliased.OList [0]) 0).
  reflexivity.
Defined.

(** ** What the discoverer returns *)

Lemma no_backslash_replace s : no_backslash (replace_backslash s) = true.
Proof.
  induction s as [|c s IH]; [done|]. cbn [replace_backslash no_backslash].
  rewrite IH. by destruct (Ascii.eqb c "\"%char) eqn:E; [|rewrite E].
Qed.


(** X8: no string the discoverer returns holds a backslash: every variant
    has its separators normalized. *)
Theorem X8_asset_dirs_no_backslash :
  forall (cwd : string) (tree_at : string -> option dirtree) (root : string),
  exists dirs,
    find_asset_dirs cwd tree_at root = Some dirs
    /\ Forall (fun x => no_backslash x = true) dirs.
Proof.
  intros cwd tree_at root.
  destruct (find_asset_dirs_spec cwd tree_at root) as (dirs & Hdirs & _ & Hmem).
  exists dirs. split; [done|]. apply Forall_forall. intros x Hx.
  apply Hmem in Hx as (dirpath & dirnames & d & _ & _ & Hsuffix & vs & Hvs & Hx).
  destruct (asset_variants_some cwd root dirpath d Hsuffix) as (rel & _ & Hvs').
  rewrite Hvs' in Hvs. injection Hvs as <-.
  repeat (apply elem_of_cons in Hx as [->|Hx]; [apply no_backslash_replace|]).
  by apply elem_of_nil in Hx.
Qed.

(** ** Every run of the program *)

Lemma main_spawn_failed w entries md_files warnings asset_dirs exc :
  w_config w = Some (PDict entries) ->
  extract_md_files (w_exists w)
                   (default (PList []) (assoc_get entries "nav")) 0
  = (md_files, warnings) ->
  find_asset_dirs (w_cwd w) (w_tree w) "docs" = Some asset_dirs ->
  w_tool w (build_command (w_exists w) md_files asset_dirs) tool_timeout
  = SpawnFailed exc ->
  main w
  = (map Stderr warnings
       ++ [Invoke (build_command (w_exists w) md_files asset_dirs) tool_timeout],
     Uncaught exc).
Proof.
  intros Hconfig Hnav Hassets Htool.
  rewrite (main_phases w entries md_files warnings asset_dirs Hconfig Hnav Hassets).
  unfold run_tool. by rewrite Htool.
Qed.

Lemma main_not_mapping w :
  (forall entries, w_config w <> Some (PDict entries)) ->
  exists exc, main w = ([], Uncaught exc).
Proof.
  intros Hnot. unfold main, load_config.
  destruct (w_config w) as [[s|items|entries|z|bits|b|]|]; eauto.
  by destruct (Hnot entries).
Qed.

(** The whole run of a program whose configuration is a mapping, by what
    the tool does. *)
Lemma script_mapping w entries :
  w_config w = Some (PDict entries) ->
  exists md_files warnings asset_dirs,
    extract_md_files (w_exists w)
                     (default (PList []) (assoc_get entries "nav")) 0
    = (md_files, warnings)
    /\ find_asset_dirs (w_cwd w) (w_tree w) "docs" = Some asset_dirs
    /\ script w
       = let cmd := build_command (w_exists w) md_files asset_dirs in
         match w_tool w cmd tool_timeout with
         | Completed returncode out err =>
             (map Stderr warnings
                ++ Invoke cmd tool_timeout :: fst (report w returncode out err),
              if (returncode =? 0)%Z then 0%Z else 1%Z)
         | TimeoutExpired text out err =>
             (map Stderr warnings
                ++ [ Invoke cmd tool_timeout;
                     Stderr ("Pandoc timed out: " +:+ text);
                     Stdout ("stdout: " +:+ out);
                     Stderr ("stderr: " +:+ err) ],
              1%Z)
         | SpawnFailed exc =>
             (map Stderr warnings ++ [Invoke cmd tool_timeout], 1%Z)
         end.
Proof.
  intros Hconfig.
  destruct (extract_md_files (w_exists w)
              (default (PList []) (assoc_get entries "nav")) 0)
    as [md_files warnings] eqn:Hnav.
  destruct (find_asset_dirs_spec (w_cwd w) (w_tree w) "docs")
    as (asset_dirs & Hassets & _).
  exists md_files, warnings, asset_dirs.
  split; [done|]. split; [done|].
  rewrite script_main. cbn zeta.
  destruct (w_tool w _ tool_timeout) as [returncode out err|text out err|exc]
    eqn:Htool.
  - rewrite (main_completed w entries md_files warnings asset_dirs
                            Hconfig Hnav Hassets returncode out err Htool).
    cbn [fst snd]. rewrite report_trace. cbn [snd].
    by destruct (returncode =? 0)%Z.
  - by rewrite (main_timed_out w entries md_files warnings asset_dirs
                               Hconfig Hnav Hassets text out err Htool).
  - by rewrite (main_spawn_failed w entries md_files warnings asset_dirs exc
                                  Hconfig Hnav Hassets Htool).
Qed.

Lemma invocations_report w returncode out err :
  invocations (fst (report w returncode out err)) = [].
Proof.
  rewrite report_trace, cleanup_trace. cbn [fst].
  destruct (truthy err), (returncode =? 0)%Z; cbn; try reflexivity;
    destruct (w_exists_after w media_dir); cbn; try reflexivity;
    by destruct (w_rmtree w media_dir).
Qed.

Lemma removals_app t1 t2 : removals (t1 ++ t2) = removals t1 ++ removals t2.
Proof. apply omap_app. Qed.

Lemma removals_stderr lines : removals (map Stderr lines) = [].
Proof. induction lines; [done|]. simpl. exact IHlines. Qed.

Lemma removals_report w returncode out err :
  removals (fst (report w returncode out err))
  = if (returncode =? 0)%Z && w_exists_after w media_dir then [media_dir]
    else [].
Proof.
  rewrite report_trace, cleanup_trace. cbn [fst].
  destruct (truthy err), (returncode =? 0)%Z; cbn; try reflexivity;
    destruct (w_exists_after w media_dir); cbn; try reflexivity;
    by destruct (w_rmtree w media_dir).
Qed.

Lemma invocations_invoke cmd timeout rest :
  invocations (Invoke cmd timeout :: rest) = cmd :: invocations rest.
Proof. reflexivity. Qed.

Lemma removals_invoke cmd timeout rest :
  removals (Invoke cmd timeout :: rest) = removals rest.
Proof. reflexivity. Qed.

(** The calls of the tool in any run. *)
Lemma script_invocations_mapping w entries md_files warnings asset_dirs :
  w_config w = Some (PDict entries) ->
  extract_md_files (w_exists w)
                   (default (PList []) (assoc_get entries "nav")) 0
  = (md_files, warnings) ->
  find_asset_dirs (w_cwd w) (w_tree w) "docs" = Some asset_dirs ->
  invocations (fst (script w))
  = [build_command (w_exists w) md_files asset_dirs].
Proof.
  intros Hconfig Hnav Hassets.
  destruct (script_mapping w entries Hconfig)
    as (md' & warnings' & assets' & Hnav' & Hassets' & Hscript).
  rewrite Hnav in Hnav'. injection Hnav' as <- <-.
  rewrite Hassets in Hassets'. injection Hassets' as <-.
  rewrite Hscript. cbn zeta.
  destruct (w_tool w _ tool_timeout); cbn [fst];
    rewrite invocations_app, invocations_stderr, invocations_invoke;
    [by rewrite invocations_report|done|done].
Qed.

Lemma all_dirs_same_elements base base' dirs dirs' :
  (forall x, x ∈ base ++ dirs <-> x ∈ base' ++ dirs') ->
  all_dirs base dirs = all_dirs base' dirs'.
Proof.
  intros Hsame. unfold all_dirs, sorted_set. do 2 f_equal.
  apply set_eq. intros x. by rewrite !elem_of_list_to_set.
Qed.

(** X9: whether [../assets] exists has no effect on the command: the
    name is in the fixed base list already, so appending it again changes
    nothing once the directories are made a set. *)
Theorem X9_command_ignores_parent_assets_test :
  forall (path_exists path_exists' : string -> bool)
         (md_files asset_dirs : list string),
    build_command path_exists md_files asset_dirs
    = build_command path_exists' md_files asset_dirs.
Proof.
  intros path_exists path_exists' md_files asset_dirs.
  unfold build_command, resource_path. do 3 f_equal.
  apply all_dirs_same_elements. intros x.
  by rewrite !elem_of_app, !base_dirs_elem.
Qed.

(** X10: the command depends on the discovered directories only as a set:
    two lists with the same members, in any order and with any
    repetition, give the same command.  The unspecified order in which a
    set is listed does not reach the tool. *)
Theorem X10_command_ignores_asset_order
        (path_exists : string -> bool) (md_files dirs dirs' : list string)
        (Hsame : forall x, x ∈ dirs <-> x ∈ dirs') :
  build_command path_exists md_files dirs
  = build_command path_exists md_files dirs'.
Proof.
  unfold build_command, resource_path. do 3 f_equal.
  apply all_dirs_same_elements. intros x.
  by rewrite !elem_of_app, Hsame.
Qed.

Lemma X10_command_ignores_asset_order_witness :
  build_command (fun _ => false) ["a.md"] ["docs/x.assets"; "docs"]
  = build_command (fun _ => false) ["a.md"] ["docs"; "docs/x.assets"; "docs"].
Proof.
  apply (X10_command_ignores_asset_order
           (fun _ => false) ["a.md"]
           ["docs/x.assets"; "docs"] ["docs"; "docs/x.assets"; "docs"]).
  intros x. rewrite !elem_of_cons, !elem_of_nil. tauto.
Defined.

(** X11: the program exits with status 0 or 1, whatever the
    configuration, the filesystem and the tool do; the tool's own return
    code is never passed on. *)
Theorem X11_exit_status_zero_or_one :
  forall w : world, snd (script w) = 0%Z \/ snd (script w) = 1%Z.
Proof.
  intros w.
  destruct (w_config w) as [[s|items|entries|z|bits|b|]|] eqn:Hconfig.
  3:{ destruct (script_mapping w entries Hconfig)
        as (md_files & warnings & asset_dirs & _ & _ & ->).
      cbn zeta.
      destruct (w_tool w _ tool_timeout) as [returncode out err| |];
        cbn [snd]; auto.
      destruct (returncode =? 0)%Z; auto. }
  all: right; rewrite script_main;
    destruct (main_not_mapping w) as [exc ->];
    [intros entries; by rewrite Hconfig|done].
Qed.

Lemma script_not_mapping w :
  (forall entries, w_config w <> Some (PDict entries)) ->
  script w = ([], 1%Z).
Proof.
  intros Hnot. rewrite script_main.
  by destruct (main_not_mapping w Hnot) as [exc ->].
Qed.

Lemma config_mapping_or_not w :
  (exists entries, w_config w = Some (PDict entries))
  \/ (forall entries, w_config w <> Some (PDict entries)).
Proof.
  destruct (w_config w) as [[s|items|entries|z|bits|b|]|]; eauto; by right.
Qed.


(** X13: the program removes nothing but [extracted-media], and only on
    the way to status 0: after a timeout, a failing tool, or a tool that
    could not be started, the directory is left in place. *)
Theorem X13_cleanup_only_after_success
        (w : world) (dir : string)
        (Hremoved : dir ∈ removals (fst (script w))) :
  dir = "extracted-media"
  /\ removals (fst (script w)) = ["extracted-media"]
  /\ snd (script w) = 0%Z
  /\ w_exists_after w "extracted-media" = true.
Proof.
  destruct (config_mapping_or_not w) as [[entries Hconfig]|Hnot].
  2:{ rewrite (script_not_mapping w Hnot) in Hremoved.
      by apply elem_of_nil in Hremoved. }
  destruct (script_mapping w entries Hconfig)
    as (md_files & warnings & asset_dirs & _ & _ & Hscript).
  rewrite Hscript in Hremoved |- *. cbn zeta in *.
  destruct (w_tool w _ tool_timeout) as [returncode out err|text out err|exc];
    cbn [fst snd] in *;
    rewrite removals_app, removals_stderr, removals_invoke in Hremoved |- *;
    cbn [app] in *;
    try by apply elem_of_nil in Hremoved.
  rewrite removals_report in Hremoved |- *.
  destruct (returncode =? 0)%Z; [|by apply elem_of_nil in Hremoved].
  cbn [andb] in *. unfold media_dir in *.
  destruct (w_exists_after w "extracted-media");
    [|by apply elem_of_nil in Hremoved].
  by apply list_elem_of_singleton in Hremoved as ->.
Qed.

Lemma X13_cleanup_only_after_success_witness :
  let w := example_world (Completed 0 "" "") None in
  removals (fst (script w)) = ["extracted-media"] /\ snd (script w) = 0%Z.
Proof.
  intros w.
  destruct (X13_cleanup_only_after_success w "extracted-media")
    as (_ & Hremovals & Hstatus & _).
  - vm_compute. left.
  - split; [exact Hremovals|exact Hstatus].
Defined.

(** X14: the program exits with status 0 exactly when the one command it
    ran completed with return code 0.  Warnings about missing files and a
    failed cleanup do not change the status. *)
Theorem X14_success_iff_tool_succeeded :
  forall w : world,
    snd (script w) = 0%Z
    <-> exists cmd out err,
          invocations (fst (script w)) = [cmd]
          /\ w_tool w cmd 300 = Completed 0 out err.
Proof.
  intros w.
  destruct (config_mapping_or_not w) as [[entries Hconfig]|Hnot].
  2:{ rewrite (script_not_mapping w Hnot). cbn. split; [done|].
      by intros (cmd & out & err & Hcalls & _). }
  destruct (script_mapping w entries Hconfig)
    as (md_files & warnings & asset_dirs & Hnav & Hassets & Hscript).
  rewrite (script_invocations_mapping w entries md_files warnings asset_dirs
                                      Hconfig Hnav Hassets).
  rewrite Hscript. cbn zeta. fold tool_timeout.
  destruct (w_tool w _ tool_timeout) as [returncode out err|text out err|exc]
    eqn:Htool; cbn [snd].
  - destruct (returncode =? 0)%Z eqn:Hcode; split.
    + intros _. apply Z.eqb_eq in Hcode as ->. eauto.
    + done.
    + done.
    + intros (cmd & out' & err' & [= <-] & Hdone).
      rewrite Htool in Hdone. injection Hdone as -> _ _. discriminate Hcode.
  - split; [done|].
    intros (cmd & out' & err' & [= <-] & Hdone). congruence.
  - split; [done|].
    intros (cmd & out' & err' & [= <-] & Hdone). congruence.
Qed.

Lemma md_files_prefixed_exist path_exists item depth :
  Forall (fun arg => path_exists arg = true)
         (md_files_prefixed (fst (extract_md_files path_exists item depth))).
Proof.
  unfold md_files_prefixed. apply Forall_map, Forall_forall.
  intros md Hmd. apply list_elem_of_filter in Hmd as [_ Hmd].
  pose proof (extract_files_exist path_exists item depth) as Hall.
  rewrite Forall_forall in Hall. by apply Hall.
Qed.

(** X15: every input file on the command line of the tool passed the
    existence test: a file that was reported missing is never handed to
    the tool. *)
Theorem X15_input_files_exist :
  forall w : world,
    Forall (fun cmd => Forall (fun arg => w_exists w arg = true) (drop 19 cmd))
           (invocations (fst (script w))).
Proof.
  intros w.
  destruct (config_mapping_or_not w) as [[entries Hconfig]|Hnot].
  2:{ rewrite (script_not_mapping w Hnot). constructor. }
  destruct (script_mapping w entries Hconfig)
    as (md_files & warnings & asset_dirs & Hnav & Hassets & _).
  rewrite (script_invocations_mapping w entries md_files warnings asset_dirs
                                      Hconfig Hnav Hassets).
  constructor; [|constructor].
  change (drop 19 (build_command (w_exists w) md_files asset_dirs))
    with (md_files_prefixed md_files).
  replace md_files
    with (fst (extract_md_files (w_exists w)
                 (default (PList []) (assoc_get entries "nav")) 0))
    by (by rewrite Hnav).
  apply md_files_prefixed_exist.
Qed.



(** X17: when the configuration cannot be loaded, or loads as anything
    but a mapping (an empty file loads as [None]), the program stops with
    status 1 before it prints a warning, calls the tool or removes
    anything. *)
Theorem X17_unusable_config_stops_early
        (w : world)
        (Hnot : forall entries, w_config w <> Some (PDict entries)) :
  script w = ([], 1%Z).
Proof. by apply script_not_mapping. Qed.

Lemma X17_unusable_config_stops_early_witness :
  let w := {| w_config := Some PNone;
              w_exists := fun _ => true;
              w_cwd := "/home/u/en";
              w_tree := fun _ => Some example_docs;
              w_tool := fun _ _ => Completed 0 "" "";
              w_exists_after := fun _ => true;
              w_rmtree := fun _ => None |} in
  script w = ([], 1%Z).
Proof.
  intros w. apply (X17_unusable_config_stops_early w).
  intros entries Hconfig. discriminate Hconfig.
Defined.
